(** * Ragworks: the Streamlit/Gemini document chat of [Finalapp.py]

    A shallow embedding of the application's functional core: the two
    SQLite tables and the functions over them ([register_user],
    [login_user], [get_chat_history], [save_message]), the PDF text
    extraction, and the two pages of the script ([main_app],
    [login_page]) as state-passing programs over the database file, the
    Streamlit session state and the log of requests sent to the model
    service. *)

From Stdlib Require Import ZArith.
From stdpp Require Import base option list strings gmap.

Local Open Scope Z_scope.
Local Open Scope string_scope.

(** ** The Python runtime: exceptions and results *)

Module Py.

(** The exceptions that the script can meet, each with the text that
    [str(e)] gives. [PasswordValueError] is what the hashing context
    raises for a password it refuses. [ServiceError] stands for whatever
    the model service's client raises. [RerunException] is what
    [st.rerun()] raises to stop the current run of the script; it is not
    an [Exception]. *)
Inductive exn : Type :=
| IntegrityError (msg : string)
| AttributeError (msg : string)
| PdfReadError (msg : string)
| PasswordValueError (msg : string)
| ServiceError (msg : string)
| RerunException.

Inductive result (A : Type) : Type :=
| Ok (a : A)
| Raise (e : exn).
Arguments Ok {A} a.
Arguments Raise {A} e.

(** Truth value of a Python [str] or [None]: only a non-empty string is
    true. *)
Definition truthy (o : option string) : bool :=
  match o with
  | Some s => negb (String.eqb s "")
  | None => false
  end.

(** [x or ""] for [x] a [str] or [None]. *)
Definition or_empty (o : option string) : string :=
  match o with
  | Some s => if truthy o then s else ""
  | None => ""
  end.

(** Truth value of a Python [int] or [None]. *)
Definition truthy_int (o : option Z) : bool :=
  match o with
  | Some z => negb (Z.eqb z 0)
  | None => false
  end.

End Py.
Import Py.

(** ** The password hashing context

    [pwd_context = CryptContext(schemes=["bcrypt"], deprecated="auto")]:
    [ctx_hash salt password] is [pwd_context.hash(password)] when the
    call draws [salt], and [ctx_verify password stored] is
    [pwd_context.verify(password, stored)]. The library is not part of
    the script. Either call can raise: the library refuses some
    passwords, one with a NUL character among them. *)

Class CryptContext : Type := {
  ctx_hash : string -> string -> result string;
  ctx_verify : string -> string -> result bool
}.

(** Verifying against a hash that the context has made is hashing again
    with the salt of that hash and comparing: a password is accepted
    exactly when it hashes, with that salt, to the same string. Nothing
    is said of how many passwords do. *)
Definition verify_rehashes (ctx : CryptContext) : Prop :=
  forall (salt p p' h : string),
    ctx_hash salt p = Ok h ->
    (ctx_verify p' h = Ok true <-> ctx_hash salt p' = Ok h).

(** ** The database file [users.db] *)

Module Sqlite.

(** A row of [users (id, username, password_hash)]. *)
Record user_row : Type := {
  u_id : Z;
  u_username : string;
  u_password_hash : string
}.

(** A row of [chat_history (id, user_id, role, content)]; [user_id] is
    [None] for SQL [NULL], which is what binding Python's [None]
    stores. *)
Record chat_row : Type := {
  c_id : Z;
  c_user_id : option Z;
  c_role : string;
  c_content : string
}.

(** The two tables with their [sqlite_sequence] entries, which an
    [AUTOINCREMENT] key keeps. *)
Record database : Type := {
  users : list user_row;
  users_seq : Z;
  chat_history : list chat_row;
  chat_history_seq : Z
}.

(** The key of the next row of an [AUTOINCREMENT] table: one more than
    the largest key the table has ever held. *)
Definition next_rowid (ids : list Z) (seq : Z) : Z :=
  Z.max seq (fold_right Z.max 0 ids) + 1.

(** [WHERE user_id = ?]: a [NULL] on either side never matches. *)
Definition user_id_matches (param : option Z) (r : chat_row) : bool :=
  match param, c_user_id r with
  | Some p, Some v => Z.eqb p v
  | _, _ => false
  end.

(** [WHERE username = ?]. *)
Definition username_matches (param : string) (r : user_row) : bool :=
  String.eqb param (u_username r).

End Sqlite.
Import Sqlite.

(** An entry of a transcript: the dict [{"role": ..., "content": ...}]. *)
Record message : Type := {
  role : string;
  content : string
}.

(** What [init_db] leaves when there is no file yet: both tables, empty. *)
Definition fresh_db : database :=
  {| users := []; users_seq := 0; chat_history := []; chat_history_seq := 0 |}.

(** [init_db]: [CREATE TABLE IF NOT EXISTS] twice; an existing file is
    left as it is. *)
Definition init_db (file : option database) : database :=
  match file with
  | Some d => d
  | None => fresh_db
  end.

Section Store.

Context {pwd_context : CryptContext}.

Definition hash_password (salt password : string) : result string :=
  ctx_hash salt password.

Definition verify_password (plain_password hashed_password : string)
  : result bool :=
  ctx_verify plain_password hashed_password.

(** [INSERT INTO users (username, password_hash) VALUES (?, ?)], with
    the [UNIQUE] constraint on [username]. *)
Definition insert_user (username password_hash : string) (d : database)
  : result database :=
  if existsb (username_matches username) (users d)
  then Raise (IntegrityError "UNIQUE constraint failed: users.username")
  else
    let rowid := next_rowid (map u_id (users d)) (users_seq d) in
    Ok {| users := users d ++ [ {| u_id := rowid;
                                   u_username := username;
                                   u_password_hash := password_hash |} ];
          users_seq := rowid;
          chat_history := chat_history d;
          chat_history_seq := chat_history_seq d |}.

(** [register_user]. The body of the [try] hashes the password and then
    inserts; the insert is committed when both succeed. On
    [sqlite3.IntegrityError] the function returns [False]; any other
    exception of the body, one raised by the hashing among them, leaves
    the function. In both cases the connection is closed without a
    commit. *)
Definition register_user (salt username password : string) (d : database)
  : result bool * database :=
  let body : result database :=
    match hash_password salt password with
    | Ok hashed_password => insert_user username hashed_password d
    | Raise e => Raise e
    end in
  match body with
  | Ok d' => (Ok true, d')
  | Raise (IntegrityError _) => (Ok false, d)
  | Raise e => (Raise e, d)
  end.

(** [SELECT id, password_hash FROM users WHERE username = ?] followed
    by [fetchone()]. *)
Definition fetch_user (username : string) (d : database) : option (Z * string) :=
  match List.filter (username_matches username) (users d) with
  | r :: _ => Some (u_id r, u_password_hash r)
  | [] => None
  end.

(** [login_user]: the password is verified only when a row was found;
    what the verification raises leaves the function. *)
Definition login_user (username password : string) (d : database)
  : result (option Z) * database :=
  let user_data := fetch_user username d in
  match user_data with
  | Some (id, stored) =>
      match verify_password password stored with
      | Ok true => (Ok (Some id), d)
      | Ok false => (Ok None, d)
      | Raise e => (Raise e, d)
      end
  | None => (Ok None, d)
  end.

(** [SELECT role, content FROM chat_history WHERE user_id = ?] and the
    list of dicts built from [fetchall()]; the table is read in the
    order of its keys. *)
Definition get_chat_history (user_id : option Z) (d : database)
  : list message * database :=
  let history :=
    map (fun row => {| role := c_role row; content := c_content row |})
        (List.filter (user_id_matches user_id) (chat_history d)) in
  (history, d).

(** [INSERT INTO chat_history (user_id, role, content) VALUES (?, ?, ?)]
    and commit. *)
Definition save_message (user_id : option Z) (role content : string)
           (d : database) : unit * database :=
  let rowid := next_rowid (map c_id (chat_history d)) (chat_history_seq d) in
  (tt, {| users := users d;
          users_seq := users_seq d;
          chat_history := chat_history d ++ [ {| c_id := rowid;
                                                 c_user_id := user_id;
                                                 c_role := role;
                                                 c_content := content |} ];
          chat_history_seq := rowid |}).

End Store.

(** ** Document processing *)

(** A page of a parsed PDF, by what [page.extract_text()] returns: a
    [str], or [None]. *)
Record Page : Type := {
  extract_text : option string
}.

(** An uploaded file, by what [PdfReader(file).pages] gives: the pages, or
    the error raised for a file that is not a well-formed PDF. *)
Record UploadedFile : Type := {
  PdfReader : result (list Page)
}.

Definition extract_text_from_pdf (file : UploadedFile) : result string :=
  match PdfReader file with
  | Raise e => Raise e
  | Ok pages =>
      Ok (fold_left (fun text page => text ++ or_empty (extract_text page))
                    pages "")
  end.

(** ** The Streamlit session *)

Module st.

(** [st.session_state], by the five attributes the script uses. A
    field is [None] while the key is not in the session state; the
    values of [user_id], [username] and [document_content] can
    themselves be Python's [None]. *)
Record session_state : Type := {
  logged_in : option bool;
  user_id : option (option Z);
  username : option (option string);
  document_content : option (option string);
  messages : option (list message)
}.

(** The session state of a client that has just connected. *)
Definition empty : session_state :=
  {| logged_in := None; user_id := None; username := None;
     document_content := None; messages := None |}.

Definition set_logged_in (v : bool) (s : session_state) : session_state :=
  {| logged_in := Some v; user_id := user_id s; username := username s;
     document_content := document_content s; messages := messages s |}.

Definition set_user_id (v : option Z) (s : session_state) : session_state :=
  {| logged_in := logged_in s; user_id := Some v; username := username s;
     document_content := document_content s; messages := messages s |}.

Definition set_username (v : option string) (s : session_state) : session_state :=
  {| logged_in := logged_in s; user_id := user_id s; username := Some v;
     document_content := document_content s; messages := messages s |}.

Definition set_document_content (v : option string) (s : session_state)
  : session_state :=
  {| logged_in := logged_in s; user_id := user_id s; username := username s;
     document_content := Some v; messages := messages s |}.

Definition set_messages (v : list message) (s : session_state) : session_state :=
  {| logged_in := logged_in s; user_id := user_id s; username := username s;
     document_content := document_content s; messages := Some v |}.

(** The values of the widgets in one run of the script. *)
Record widgets : Type := {
  selectbox : string;                     (* "Choose an action" *)
  text_input_username : string;
  text_input_password : string;
  button_login : bool;
  button_register : bool;
  file_uploader : option UploadedFile;
  button_logout : bool;
  chat_input : option string
}.

End st.

(** What the outside gives to one run of the script: the salt a
    [pwd_context.hash] call draws, and the model service, which for a
    prompt returns the text of its response or raises. *)
Record environment : Type := {
  salt : string;
  generate_content : string -> result string
}.

(** ** Runs of the script as state-passing programs *)

Record world : Type := {
  db : database;
  session_state : st.session_state;
  gemini_calls : list string      (* the prompts sent to the model service *)
}.

Module Run.

Definition M (A : Type) : Type := world -> result A * world.

Definition ret {A} (a : A) : M A := fun w => (Ok a, w).

Definition bind {A B} (c : M A) (k : A -> M B) : M B :=
  fun w =>
    match c w with
    | (Ok a, w') => k a w'
    | (Raise e, w') => (Raise e, w')
    end.

Definition raise {A} (e : exn) : M A := fun w => (Raise e, w).

(** [str(e)]. *)
Definition str (e : exn) : string :=
  match e with
  | IntegrityError msg => msg
  | AttributeError msg => msg
  | PdfReadError msg => msg
  | PasswordValueError msg => msg
  | ServiceError msg => msg
  | RerunException => ""
  end.

(** [isinstance(e, Exception)]: Streamlit's control exception is not. *)
Definition is_Exception (e : exn) : bool :=
  match e with
  | RerunException => false
  | _ => true
  end.

(** [try: body  except Exception as e: handler(e)]. *)
Definition try_except {A} (body : M A) (handler : exn -> M A) : M A :=
  fun w =>
    match body w with
    | (Ok a, w') => (Ok a, w')
    | (Raise e, w') => if is_Exception e then handler e w' else (Raise e, w')
    end.

(** A function of the database layer: it opens its own connection to
    [users.db], and what it commits is what it returns here. *)
Definition on_db {A} (f : database -> A * database) : M A :=
  fun w =>
    let (a, d) := f (db w) in
    (Ok a, {| db := d; session_state := session_state w;
              gemini_calls := gemini_calls w |}).

(** The same for a function that can raise. *)
Definition on_db_try {A} (f : database -> result A * database) : M A :=
  fun w =>
    let (r, d) := f (db w) in
    (r, {| db := d; session_state := session_state w;
           gemini_calls := gemini_calls w |}).

(** A computation that touches nothing. *)
Definition lift {A} (r : result A) : M A := fun w => (r, w).

(** [st.session_state.name]: an attribute that was never assigned
    raises [AttributeError]; the text of the error is shortened to its
    first sentence. *)
Definition getattr {A} (name : string) (field : st.session_state -> option A)
  : M A :=
  fun w =>
    match field (session_state w) with
    | Some v => (Ok v, w)
    | None =>
        (Raise (AttributeError
                  ("st.session_state has no attribute " ++ name)), w)
    end.

(** [st.session_state.name = v]. *)
Definition setattr (update : st.session_state -> st.session_state) : M unit :=
  fun w =>
    (Ok tt, {| db := db w; session_state := update (session_state w);
               gemini_calls := gemini_calls w |}).

(** [name in st.session_state]. *)
Definition hasattr {A} (field : st.session_state -> option A) : M bool :=
  fun w => (Ok (bool_decide (is_Some (field (session_state w)))), w).

(** [model.generate_content(prompt)] and [response.text]: one request
    to the service. *)
Definition call_gemini (env : environment) (prompt : string) : M string :=
  fun w =>
    (generate_content env prompt,
     {| db := db w; session_state := session_state w;
        gemini_calls := gemini_calls w ++ [prompt] |}).

(** [st.rerun()]. *)
Definition rerun : M unit := raise RerunException.

End Run.
Import Run.

Notation "'let*' x := c1 'in' c2" := (bind c1 (fun x => c2))
  (at level 10, x name, c1 at level 100, c2 at level 200).
Notation "c1 ;; c2" := (bind c1 (fun _ => c2))
  (at level 100, c2 at level 200, right associativity).

(** ** The pages of the application *)

Definition no_document_reply : string :=
  "Please upload a document first to enable the RAG feature.".

Definition newline : string := String (Ascii.ascii_of_nat 10) "".

(** The f-string of lines 216-217. *)
Definition full_prompt (context prompt : string) : string :=
  "Based on the following document content, answer the user's question. "
  ++ "Document: " ++ context ++ newline ++ newline
  ++ "User Question: " ++ prompt.

(** The f-string of line 225. *)
Definition error_reply (e : exn) : string :=
  "An error occurred: " ++ str e.

(** [main_app], without its calls that only render. *)
Definition main_app (env : environment) (ui : st.widgets) : M unit :=
  (* line 173: the welcome line reads the username *)
  let* _ := getattr "username" st.username in
  (* lines 181-184 *)
  (match st.file_uploader ui with
   | Some uploaded_file =>
       let* document_content := lift (extract_text_from_pdf uploaded_file) in
       setattr (st.set_document_content (Some document_content))
   | None => ret tt
   end) ;;
  (* lines 186-191 *)
  (if st.button_logout ui then
     setattr (st.set_logged_in false) ;;
     setattr (st.set_user_id None) ;;
     setattr (st.set_username None) ;;
     setattr (st.set_document_content None) ;;
     rerun
   else ret tt) ;;
  (* lines 194-195 *)
  let* present := hasattr st.messages in
  let* reload :=
    (if negb present then ret true
     else let* current := getattr "messages" st.messages in
          ret (bool_decide (current = []))) in
  (if reload then
     let* user_id := getattr "user_id" st.user_id in
     let* history := on_db (get_chat_history user_id) in
     setattr (st.set_messages history)
   else ret tt) ;;
  (* lines 198-200: the transcript is read to be shown *)
  let* _ := getattr "messages" st.messages in
  (* lines 203-234 *)
  match st.chat_input ui with
  | Some prompt =>
      if truthy (Some prompt) then
        let user_message := {| role := "user"; content := prompt |} in
        let* shown := getattr "messages" st.messages in
        setattr (st.set_messages (shown ++ [user_message])) ;;
        let* user_id := getattr "user_id" st.user_id in
        on_db (save_message user_id "user" prompt) ;;
        let* document_content :=
          getattr "document_content" st.document_content in
        let* ai_response :=
          (match document_content with
           | Some context =>
               if truthy document_content then
                 try_except
                   (call_gemini env (full_prompt context prompt))
                   (fun e => ret (error_reply e))
               else ret no_document_reply
           | None => ret no_document_reply
           end) in
        let assistant_message := {| role := "assistant"; content := ai_response |} in
        let* shown := getattr "messages" st.messages in
        setattr (st.set_messages (shown ++ [assistant_message])) ;;
        let* user_id := getattr "user_id" st.user_id in
        on_db (save_message user_id "assistant" ai_response)
      else ret tt
  | None => ret tt
  end.

Section Pages.

Context {pwd_context : CryptContext}.

(** [login_page], without its calls that only render. *)
Definition login_page (env : environment) (ui : st.widgets) : M unit :=
  let choice := st.selectbox ui in
  if String.eqb choice "Login" then
    let username := st.text_input_username ui in
    let password := st.text_input_password ui in
    if st.button_login ui then
      let* user_id := on_db_try (login_user username password) in
      if truthy_int user_id then
        setattr (st.set_logged_in true) ;;
        setattr (st.set_user_id user_id) ;;
        setattr (st.set_username (Some username)) ;;
        rerun
      else ret tt
    else ret tt
  else
    let new_username := st.text_input_username ui in
    let new_password := st.text_input_password ui in
    if st.button_register ui then
      let* _ := on_db_try (register_user (salt env) new_username new_password) in
      ret tt
    else ret tt.

(** The entry point, lines 268-277: one run of the script. *)
Definition script (env : environment) (ui : st.widgets) : M unit :=
  on_db (fun d => (tt, init_db (Some d))) ;;
  let* present := hasattr st.logged_in in
  (if present then ret tt else setattr (st.set_logged_in false)) ;;
  let* logged_in := getattr "logged_in" st.logged_in in
  if logged_in then main_app env ui else login_page env ui.

(** The widgets as the run that follows [st.rerun()] sees them: no
    button is pressed, nothing is submitted, and the page that is drawn
    is a new one. *)
Definition released (ui : st.widgets) : st.widgets :=
  {| st.selectbox := st.selectbox ui;
     st.text_input_username := st.text_input_username ui;
     st.text_input_password := st.text_input_password ui;
     st.button_login := false;
     st.button_register := false;
     st.file_uploader := None;
     st.button_logout := false;
     st.chat_input := None |}.

(** One interaction of a client: the script runs, and runs again when
    it asked for it. *)
Definition interact (env : environment) (ui : st.widgets) (w : world)
  : result unit * world :=
  match script env ui w with
  | (Raise RerunException, w') => script env (released ui) w'
  | outcome => outcome
  end.

(** ** Several clients over one database *)

Record system : Type := {
  store : database;
  sessions : gmap nat st.session_state
}.

Definition initial : system :=
  {| store := init_db None; sessions := ∅ |}.

(** Client [sid] interacts; a client seen for the first time starts
    from the empty session state. *)
Definition client_step (sid : nat) (env : environment) (ui : st.widgets)
           (sys : system) : system :=
  let w := {| db := store sys;
              session_state := default st.empty (sessions sys !! sid);
              gemini_calls := [] |} in
  let w' := snd (interact env ui w) in
  {| store := db w'; sessions := <[sid := session_state w']> (sessions sys) |}.

(** The system after a sequence of interactions, each by some client. *)
Definition client_steps (steps : list (nat * environment * st.widgets))
           (sys : system) : system :=
  fold_left (fun sys '(sid, env, ui) => client_step sid env ui sys) steps sys.

End Pages.

(** ** A hashing context to run the definitions on

    [bcrypt_like digest] treats the password as the library's bcrypt
    handler does before it computes anything: a password with a NUL
    character is refused with an error, and only the first 72 bytes of
    the password are read. The computation itself is [digest], of the
    salt and of what was read. A hash is the salt followed by the digest,
    and verifying is hashing again under the salt of the hash and
    comparing. The salt is one character, the first of what the call
    draws. *)

Fixpoint has_nul (s : string) : bool :=
  match s with
  | EmptyString => false
  | String c rest => Ascii.eqb c Ascii.zero || has_nul rest
  end.

Definition read_bytes (password : string) : string :=
  String.substring 0 72 password.

Definition salt_char (salt : string) : Ascii.ascii :=
  match salt with
  | String c _ => c
  | EmptyString => Ascii.ascii_of_nat 48
  end.

Definition nul_refused : exn :=
  PasswordValueError "bcrypt does not allow NULL bytes in password".

Definition bcrypt_like (digest : Ascii.ascii -> string -> string)
  : CryptContext :=
  let hash salt password :=
    if has_nul password then Raise nul_refused
    else Ok (String (salt_char salt)
                    (digest (salt_char salt) (read_bytes password))) in
  {| ctx_hash := hash;
     ctx_verify password stored :=
       match stored with
       | String c _ =>
           match hash (String c EmptyString) password with
           | Ok again => Ok (String.eqb again stored)
           | Raise e => Raise e
           end
       | EmptyString => Ok false
       end |}.

(** The context of the examples: its digest is what was read of the
    password, as it is. It stands for bcrypt's, which the examples do not
    depend on. *)
Definition example_context : CryptContext :=
  bcrypt_like (fun _ read => read).

(** The calls a client of the two stores can make, and their effect on
    the database. *)
Inductive store_call : Type :=
| call_register (salt username password : string)
| call_login (username password : string)
| call_history (user_id : option Z)
| call_append (user_id : option Z) (role content : string).

Definition perform `{CryptContext} (c : store_call) (d : database) : database :=
  match c with
  | call_register salt username password =>
      snd (register_user salt username password d)
  | call_login username password => snd (login_user username password d)
  | call_history user_id => snd (get_chat_history user_id d)
  | call_append user_id role content => snd (save_message user_id role content d)
  end.

Definition perform_all `{CryptContext} (cs : list store_call) (d : database)
  : database :=
  fold_left (fun d c => perform c d) cs d.

(** The messages that the calls append for user [u], in call order. *)
Definition appended_for (u : Z) (cs : list store_call) : list message :=
  omap (fun c =>
          match c with
          | call_append (Some v) r t =>
              if Z.eqb u v then Some {| role := r; content := t |} else None
          | _ => None
          end) cs.

(** Every username is held by one row at most. *)
Definition usernames_unique (d : database) : Prop :=
  NoDup (map u_username (users d)).

(** Every stored hash is the hash of some password. *)
Definition hashes_made `{CryptContext} (d : database) : Prop :=
  forall row, In row (users d) ->
              exists salt p, ctx_hash salt p = Ok (u_password_hash row).

(** Every stored role is one of the two that the chat turn writes. *)
Definition roles_known (d : database) : Prop :=
  forall row, In row (chat_history d) ->
              c_role row = "user" \/ c_role row = "assistant".

(** The text of a page, empty when there is none. *)
Definition page_text (p : Page) : string :=
  match extract_text p with
  | Some s => s
  | None => ""
  end.

(** The texts of the pages, one after the other. *)
Fixpoint concatenation (pages : list Page) : string :=
  match pages with
  | [] => ""
  | p :: rest => page_text p ++ concatenation rest
  end.

(** The document text that line 213 reads, given the widgets of the run:
    what lines 181-184 leave in [document_content]. [Ok None] is the key
    that was never assigned. *)
Definition held_document (ui : st.widgets) (s : st.session_state)
  : result (option (option string)) :=
  match st.file_uploader ui with
  | Some file =>
      match extract_text_from_pdf file with
      | Ok text => Ok (Some (Some text))
      | Raise e => Raise e
      end
  | None => Ok (st.document_content s)
  end.

(** A computation keeps a property of the database, however it ends. *)
Definition preserves (P : database -> Prop) {A} (c : M A) : Prop :=
  forall w, P (db w) -> P (db (snd (c w))).

(** The database after the two [save_message] calls of a chat turn. *)
Definition after_turn (user_id : option Z) (question reply : string)
           (d : database) : database :=
  snd (save_message user_id "assistant" reply
         (snd (save_message user_id "user" question d))).

(** ** A session to run the pages on

    One browser session over a fresh database: ["alice"] and ["bob"]
    register, ["alice"] logs in, uploads a file of two pages and asks a
    question, logs out, and ["bob"] logs in. *)

Module Example.

#[local] Existing Instance example_context.

Definition idle : st.widgets :=
  {| st.selectbox := "Login";
     st.text_input_username := "";
     st.text_input_password := "";
     st.button_login := false;
     st.button_register := false;
     st.file_uploader := None;
     st.button_logout := false;
     st.chat_input := None |}.

Definition press_register (u p : string) : st.widgets :=
  {| st.selectbox := "Register";
     st.text_input_username := u;
     st.text_input_password := p;
     st.button_login := false;
     st.button_register := true;
     st.file_uploader := None;
     st.button_logout := false;
     st.chat_input := None |}.

Definition press_login (u p : string) : st.widgets :=
  {| st.selectbox := "Login";
     st.text_input_username := u;
     st.text_input_password := p;
     st.button_login := true;
     st.button_register := false;
     st.file_uploader := None;
     st.button_logout := false;
     st.chat_input := None |}.

Definition press_logout : st.widgets :=
  {| st.selectbox := "Login";
     st.text_input_username := "";
     st.text_input_password := "";
     st.button_login := false;
     st.button_register := false;
     st.file_uploader := None;
     st.button_logout := true;
     st.chat_input := None |}.

(** A question typed into the chat box, with [file] in the uploader. *)
Definition ask (file : option UploadedFile) (q : string) : st.widgets :=
  {| st.selectbox := "Login";
     st.text_input_username := "";
     st.text_input_password := "";
     st.button_login := false;
     st.button_register := false;
     st.file_uploader := file;
     st.button_logout := false;
     st.chat_input := Some q |}.

(** A password with a NUL character in it. *)
Definition nul_password : string :=
  "a" ++ String Ascii.zero "b".



Definition two_pages : UploadedFile :=
  {| PdfReader := Ok [ {| extract_text := Some "Hello" |};
                       {| extract_text := Some "" |} ] |}.

(** A service that answers, and one whose client raises. *)
Definition answering : environment :=
  {| salt := "s"; generate_content := fun _ => Ok "It says Hello." |}.

Definition failing : environment :=
  {| salt := "s";
     generate_content := fun _ => Raise (ServiceError "429 quota exceeded") |}.

Definition connected : world :=
  {| db := init_db None; session_state := st.empty; gemini_calls := [] |}.

Definition registered : world :=
  snd (interact answering (press_register "bob" "hunter2")
         (snd (interact answering (press_register "alice" "pw123") connected))).

Definition alice_in : world :=
  snd (interact answering (press_login "alice" "pw123") registered).

(** The question asked before anything was uploaded. *)
Definition alice_asked_early : result unit * world :=
  interact answering (ask None "What does it say?") alice_in.

Definition alice_asked : world :=
  snd (interact answering (ask (Some two_pages) "What does it say?") alice_in).

Definition alice_out : world :=
  snd (interact answering press_logout alice_asked).

Definition bob_in : world :=
  snd (interact answering (press_login "bob" "hunter2") alice_out).

End Example.

(** ** Further properties of the stores: what they are stated with *)

(** The keys of a table are 1, 2, ... in row order, and the table's
    [sqlite_sequence] entry is the last of them. *)
Definition counted (ids : list Z) (s : Z) : Prop :=
  s = Z.of_nat (length ids) /\
  ids = map Z.of_nat (List.seq 1 (length ids)).

Definition keys_counted (d : database) : Prop :=
  counted (map u_id (users d)) (users_seq d) /\
  counted (map c_id (chat_history d)) (chat_history_seq d).

(** Database [d] holds the rows of [d0], in their places, and possibly
    more rows after them. *)
Definition extends (d0 d : database) : Prop :=
  (exists more, users d = (users d0 ++ more)%list) /\
  (exists more, chat_history d = (chat_history d0 ++ more)%list).

(** A session that is logged in names an account of the table: its
    [user_id] and [username] are those of one row, and the identifier is
    not zero. *)
Definition names_account (rows : list user_row) (s : st.session_state) : Prop :=
  st.logged_in s = Some true ->
  exists row,
    In row rows /\ u_id row <> 0 /\
    st.user_id s = Some (Some (u_id row)) /\
    st.username s = Some (Some (u_username row)).

(** Every session of the system does. *)
Definition sessions_name_accounts (sys : system) : Prop :=
  forall (sid : nat) (s : st.session_state),
    sessions sys !! sid = Some s -> names_account (users (store sys)) s.




(** * Properties *)

(** ** Credential store *)

Section CredentialStore.

Context {pwd_context : CryptContext}.

Lemma username_taken_iff (username : string) (d : database) :
  existsb (username_matches username) (users d) = true <->
  exists row, In row (users d) /\ u_username row = username.
Proof.
  rewrite existsb_exists. unfold username_matches.
  split; intros (row & Hin & Heq); exists row; split; auto.
  - symmetry. now apply String.eqb_eq.
  - apply String.eqb_eq. now symmetry.
Qed.

Lemma username_free (username : string) (d : database) :
  (forall row, In row (users d) -> u_username row <> username) ->
  existsb (username_matches username) (users d) = false.
Proof.
  intros Hfree. apply not_true_is_false. intros Htaken.
  apply username_taken_iff in Htaken as (row & Hin & Heq).
  exact (Hfree row Hin Heq).
Qed.

(** *** [register_user], by what the hashing and the insert do *)

Lemma register_user_refused
      (salt username password : string) (d : database) (e : exn) :
  ctx_hash salt password = Raise e ->
  register_user salt username password d =
  (match e with
   | IntegrityError _ => Ok false
   | _ => Raise e
   end, d).
Proof.
  intros Hhash. unfold register_user, hash_password. rewrite Hhash.
  destruct e; reflexivity.
Qed.

Lemma register_user_taken
      (salt username password h : string) (d : database) :
  ctx_hash salt password = Ok h ->
  existsb (username_matches username) (users d) = true ->
  register_user salt username password d = (Ok false, d).
Proof.
  intros Hhash Htaken. unfold register_user, hash_password, insert_user.
  now rewrite Hhash, Htaken.
Qed.

Lemma register_user_free
      (salt username password h : string) (d : database) :
  ctx_hash salt password = Ok h ->
  existsb (username_matches username) (users d) = false ->
  register_user salt username password d =
  (Ok true,
   {| users := users d ++
               [ {| u_id := next_rowid (map u_id (users d)) (users_seq d);
                    u_username := username;
                    u_password_hash := h |} ];
      users_seq := next_rowid (map u_id (users d)) (users_seq d);
      chat_history := chat_history d;
      chat_history_seq := chat_history_seq d |}).
Proof.
  intros Hhash Hfree. unfold register_user, hash_password, insert_user.
  now rewrite Hhash, Hfree.
Qed.

(** A call either leaves the database as it is or adds one row, with the
    hash that the context returned. *)
Lemma register_user_effect (salt username password : string) (d : database) :
  snd (register_user salt username password d) = d \/
  exists h,
    ctx_hash salt password = Ok h /\
    existsb (username_matches username) (users d) = false /\
    register_user salt username password d =
    (Ok true,
     {| users := users d ++
                 [ {| u_id := next_rowid (map u_id (users d)) (users_seq d);
                      u_username := username;
                      u_password_hash := h |} ];
        users_seq := next_rowid (map u_id (users d)) (users_seq d);
        chat_history := chat_history d;
        chat_history_seq := chat_history_seq d |}).
Proof.
  destruct (ctx_hash salt password) as [h|e] eqn:Hhash.
  - destruct (existsb (username_matches username) (users d)) eqn:Htaken.
    + left. now rewrite (register_user_taken _ _ _ h _ Hhash Htaken).
    + right. exists h. repeat split; auto. now apply register_user_free.
  - left. now rewrite (register_user_refused _ _ _ _ e Hhash).
Qed.

(** C3, as the code has it. When the hashing context returns a hash [h]
    for the password, [register_user] does not raise: it returns [False]
    exactly when a row with the username exists, and then the database is
    the one it was given; when it returns [True] the database has one
    more row of [users], holding the next key, the username and [h].
    When the hashing raises, nothing is stored, whether the username is
    taken or not, and the error leaves the function (it is answered with
    [False] only if it is an [IntegrityError]). *)
Theorem register_user_hashed_fails_iff_duplicate
        (salt username password : string) (d : database) :
  (forall h : string,
      ctx_hash salt password = Ok h ->
      exists ok : bool,
        fst (register_user salt username password d) = Ok ok /\
        (ok = false <->
         exists row, In row (users d) /\ u_username row = username) /\
        (ok = false -> snd (register_user salt username password d) = d) /\
        (ok = true ->
         snd (register_user salt username password d) =
         {| users := users d ++
                     [ {| u_id := next_rowid (map u_id (users d)) (users_seq d);
                          u_username := username;
                          u_password_hash := h |} ];
            users_seq := next_rowid (map u_id (users d)) (users_seq d);
            chat_history := chat_history d;
            chat_history_seq := chat_history_seq d |})) /\
  (forall e : exn,
      ctx_hash salt password = Raise e ->
      snd (register_user salt username password d) = d /\
      (fst (register_user salt username password d) = Raise e \/
       (fst (register_user salt username password d) = Ok false /\
        exists msg, e = IntegrityError msg))).
Proof.
  split.
  - intros h Hhash.
    destruct (existsb (username_matches username) (users d)) eqn:Htaken.
    + exists false. rewrite (register_user_taken _ _ _ h _ Hhash Htaken). cbn.
      repeat split; try discriminate; auto.
      intros _. now apply username_taken_iff.
    + exists true. rewrite (register_user_free _ _ _ h _ Hhash Htaken). cbn.
      repeat split; try discriminate; auto.
      intros Hex. apply username_taken_iff in Hex. congruence.
  - intros e Hhash. rewrite (register_user_refused _ _ _ _ e Hhash). cbn.
    split; [reflexivity|]. destruct e; eauto.
Qed.


(** *** What every database built by the store's functions satisfies *)

Lemma login_user_read_only (username password : string) (d : database) :
  snd (login_user username password d) = d.
Proof.
  unfold login_user. destruct (fetch_user username d) as [[i h]|]; auto.
  destruct (verify_password password h) as [[|]|]; auto.
Qed.

Lemma perform_keeps_usernames_unique (c : store_call) (d : database) :
  usernames_unique d -> usernames_unique (perform c d).
Proof.
  unfold usernames_unique. intros Hd.
  destruct c as [salt u p | u p | uid | uid r t]; cbn; auto.
  - destruct (register_user_effect salt u p d) as [-> | (h & _ & Hfree & ->)];
      auto.
    cbn. rewrite map_app. cbn. apply NoDup_app. repeat split; auto.
    + intros x Hx Hx'. apply list_elem_of_In in Hx, Hx'.
      destruct Hx' as [<- | []].
      apply in_map_iff in Hx as (row & Heq & Hin).
      assert (existsb (username_matches u) (users d) = true)
        by (apply username_taken_iff; eauto).
      congruence.
    + apply NoDup_singleton.
  - now rewrite login_user_read_only.
Qed.



Lemma fresh_db_invariants :
  usernames_unique (init_db None) /\ hashes_made (init_db None).
Proof.
  split.
  - apply NoDup_nil_2.
  - intros row [].
Qed.

(** *** [fetchone()] on a table with unique usernames *)

Lemma filter_no_match {A} (f : A -> bool) (l : list A) :
  (forall x, In x l -> f x = false) -> List.filter f l = [].
Proof.
  induction l as [|a l IH]; intros Hall; cbn; auto.
  rewrite (Hall a (or_introl eq_refl)). apply IH.
  intros x Hx. apply Hall. now right.
Qed.


Lemma fetch_user_Some (u : string) (d : database) (id : Z) (h : string) :
  fetch_user u d = Some (id, h) ->
  exists row, In row (users d) /\ u_username row = u /\
              u_id row = id /\ u_password_hash row = h.
Proof.
  unfold fetch_user.
  destruct (List.filter (username_matches u) (users d)) as [|r l] eqn:Hf;
    [discriminate|].
  intros [= <- <-]. exists r.
  assert (Hr : In r (List.filter (username_matches u) (users d)))
    by (rewrite Hf; now left).
  apply filter_In in Hr as [Hin Hm]. unfold username_matches in Hm.
  apply String.eqb_eq in Hm. auto.
Qed.

Lemma fetch_user_None (u : string) (d : database) :
  fetch_user u d = None ->
  forall row, In row (users d) -> u_username row <> u.
Proof.
  unfold fetch_user.
  destruct (List.filter (username_matches u) (users d)) as [|r l] eqn:Hf;
    [|discriminate].
  intros _ row Hin Hu.
  assert (Hr : In row (List.filter (username_matches u) (users d))).
  { apply filter_In. split; auto. unfold username_matches.
    apply String.eqb_eq. now symmetry. }
  rewrite Hf in Hr. destruct Hr.
Qed.




End CredentialStore.

(** *** The context of the examples *)

Lemma bcrypt_like_rehashes (digest : Ascii.ascii -> string -> string) :
  verify_rehashes (bcrypt_like digest).
Proof.
  intros salt p p' h. cbn -[String.eqb].
  destruct (has_nul p); [discriminate|]. intros [= <-]. cbn -[String.eqb].
  destruct (has_nul p'); [split; discriminate|].
  split; intros [= H]; f_equal.
  - rewrite Ascii.eqb_refl in H. apply String.eqb_eq in H. now rewrite H.
  - apply String.eqb_eq. now rewrite H.
Qed.



(** ["alice"] registers with ["pw123"]; a second registration of the name
    is answered with [False] and changes nothing. *)
Lemma register_user_hashed_fails_iff_duplicate_witness :
  fst (@register_user example_context "t" "alice" "other"
         (snd (@register_user example_context "s" "alice" "pw123" fresh_db)))
  = Ok false /\
  snd (@register_user example_context "t" "alice" "other"
         (snd (@register_user example_context "s" "alice" "pw123" fresh_db)))
  = snd (@register_user example_context "s" "alice" "pw123" fresh_db).
Proof.
  destruct (@register_user_hashed_fails_iff_duplicate example_context
              "t" "alice" "other"
              (snd (@register_user example_context "s" "alice" "pw123" fresh_db)))
    as [Hhashed _].
  destruct (Hhashed "tother" eq_refl) as (ok & Hret & Hiff & Hsame & _).
  assert (Hok : ok = false).
  { apply Hiff.
    exists {| u_id := 1; u_username := "alice"; u_password_hash := "spw123" |}.
    split; [left; reflexivity | reflexivity]. }
  subst ok. split; [exact Hret | exact (Hsame eq_refl)].
Defined.

(** A taken username is not always answered with [False]: a row holds
    the username ["alice"], and a registration of that name with a
    password that has a NUL character raises. *)
Lemma register_user_duplicate_raises_on_nul_password :
  (exists row,
      In row (users (snd (@register_user example_context
                            "s" "alice" "pw123" fresh_db))) /\
      u_username row = "alice") /\
  fst (@register_user example_context "t" "alice" Example.nul_password
         (snd (@register_user example_context "s" "alice" "pw123" fresh_db)))
  = Raise nul_refused.
Proof.
  split; [|reflexivity].
  eexists. split; [left; reflexivity | reflexivity].
Qed.



(** ** Conversation store *)

Section ConversationStore.

Context {pwd_context : CryptContext}.

Lemma get_chat_history_read_only (user_id : option Z) (d : database) :
  snd (get_chat_history user_id d) = d.
Proof. reflexivity. Qed.

Lemma chat_history_perform (c : store_call) (d : database) :
  chat_history (perform c d) =
  (chat_history d ++
   match c with
   | call_append user_id r t =>
       [ {| c_id := next_rowid (map c_id (chat_history d)) (chat_history_seq d);
            c_user_id := user_id; c_role := r; c_content := t |} ]
   | _ => []
   end)%list.
Proof.
  destruct c as [salt u p | u p | uid | uid r t]; cbn;
    rewrite ?List.app_nil_r; auto.
  - destruct (register_user_effect salt u p d) as [-> | (h & _ & _ & ->)];
      reflexivity.
  - now rewrite login_user_read_only.
Qed.

Lemma history_perform (u : Z) (c : store_call) (d : database) :
  fst (get_chat_history (Some u) (perform c d)) =
  (fst (get_chat_history (Some u) d) ++ appended_for u [c])%list.
Proof.
  unfold get_chat_history. cbn [fst].
  rewrite chat_history_perform, List.filter_app, map_app. f_equal.
  destruct c as [salt n p | n p | uid | [v|] r t]; cbn; auto.
  destruct (Z.eqb u v); reflexivity.
Qed.

Lemma appended_for_cons (u : Z) (c : store_call) (cs : list store_call) :
  appended_for u (c :: cs) = (appended_for u [c] ++ appended_for u cs)%list.
Proof.
  unfold appended_for. cbn.
  destruct c as [salt n p | n p | uid | [v|] r t]; cbn; auto.
  destruct (Z.eqb u v); reflexivity.
Qed.

Lemma history_perform_all (u : Z) (cs : list store_call) (d : database) :
  fst (get_chat_history (Some u) (perform_all cs d)) =
  (fst (get_chat_history (Some u) d) ++ appended_for u cs)%list.
Proof.
  revert d. induction cs as [|c cs IH]; intros d.
  - unfold appended_for. cbn. symmetry. apply List.app_nil_r.
  - cbn [perform_all fold_left]. fold (perform_all cs (perform c d)).
    rewrite (appended_for_cons u c cs), IH, history_perform.
    symmetry. apply List.app_assoc.
Qed.

Lemma appended_for_own_appends (u : Z) (msgs : list message) :
  appended_for u
    (map (fun m => call_append (Some u) (role m) (content m)) msgs) = msgs.
Proof.
  induction msgs as [|[r t] msgs IH]; auto.
  cbn [map]. rewrite (appended_for_cons u _ (map _ msgs)), IH.
  unfold appended_for. cbn.
  now rewrite Z.eqb_refl.
Qed.

(** C2. From the database that [init_db] creates, after any sequence of
    calls to the store, [get_chat_history] for user [u] returns the
    messages that the calls appended for [u], one entry for each such
    call and in call order; so after exactly the appends of [msgs] it
    returns [msgs], and with no append for [u] it returns the empty
    list. The call leaves the database as it was, and a second call
    returns what the first did. *)
Theorem get_chat_history_returns_appends (u : Z) (cs : list store_call) :
  let d := perform_all cs (init_db None) in
  fst (get_chat_history (Some u) d) = appended_for u cs /\
  (forall msgs : list message,
      cs = map (fun m => call_append (Some u) (role m) (content m)) msgs ->
      fst (get_chat_history (Some u) d) = msgs /\
      length (fst (get_chat_history (Some u) d)) = length cs) /\
  (appended_for u cs = [] -> fst (get_chat_history (Some u) d) = []) /\
  snd (get_chat_history (Some u) d) = d /\
  get_chat_history (Some u) (snd (get_chat_history (Some u) d)) =
  get_chat_history (Some u) d.
Proof.
  intros d.
  assert (Hall : fst (get_chat_history (Some u) d) = appended_for u cs).
  { unfold d. now rewrite history_perform_all. }
  repeat split; auto.
  - rewrite Hall. subst cs. apply appended_for_own_appends.
  - rewrite Hall. subst cs. rewrite appended_for_own_appends.
    now rewrite length_map.
  - intros Hnone. now rewrite Hall.
Qed.

(** What one [save_message] does to the table. *)
Lemma save_message_appends_row
      (user_id : option Z) (r t : string) (d : database) :
  snd (save_message user_id r t d) =
  {| users := users d;
     users_seq := users_seq d;
     chat_history :=
       chat_history d ++
       [ {| c_id := next_rowid (map c_id (chat_history d)) (chat_history_seq d);
            c_user_id := user_id; c_role := r; c_content := t |} ];
     chat_history_seq :=
       next_rowid (map c_id (chat_history d)) (chat_history_seq d) |}.
Proof. reflexivity. Qed.

End ConversationStore.

(** ** Document extractor *)

Lemma or_empty_page_text (p : Page) : or_empty (extract_text p) = page_text p.
Proof.
  unfold or_empty, page_text, truthy.
  destruct (extract_text p) as [s|]; auto.
  destruct (String.eqb_spec s ""); cbn; [now subst | reflexivity].
Qed.

Lemma string_app_assoc (a b c : string) : (a ++ b) ++ c = a ++ (b ++ c).
Proof.
  induction a as [|x a IH]; [reflexivity|].
  change (String x ((a ++ b) ++ c) = String x (a ++ (b ++ c))).
  now rewrite IH.
Qed.

Lemma string_app_empty (a : string) : a ++ "" = a.
Proof.
  induction a as [|x a IH]; [reflexivity|].
  change (String x (a ++ "") = String x a). now rewrite IH.
Qed.

Lemma extract_loop (pages : list Page) (text : string) :
  fold_left (fun text page => text ++ or_empty (extract_text page)) pages text =
  text ++ concatenation pages.
Proof.
  revert text. induction pages as [|p pages IH]; intros text; cbn.
  - now rewrite string_app_empty.
  - now rewrite IH, or_empty_page_text, string_app_assoc.
Qed.

(** C7. On a file that parses into pages, [extract_text_from_pdf] returns
    the texts of the pages one after the other in page order, a page
    without text standing for the empty string. *)
Theorem extract_text_from_pdf_concatenates
        (file : UploadedFile) (pages : list Page) :
  PdfReader file = Ok pages ->
  extract_text_from_pdf file = Ok (concatenation pages).
Proof.
  intros Hparse. unfold extract_text_from_pdf. rewrite Hparse.
  now rewrite extract_loop.
Qed.

(** A file of four pages, the second without text and the third with the
    empty text. *)
Lemma extract_text_from_pdf_concatenates_witness :
  extract_text_from_pdf
    {| PdfReader := Ok [ {| extract_text := Some "Hello" |};
                         {| extract_text := None |};
                         {| extract_text := Some "" |};
                         {| extract_text := Some " world" |} ] |} =
  Ok "Hello world".
Proof.
  exact (extract_text_from_pdf_concatenates
           {| PdfReader := Ok [ {| extract_text := Some "Hello" |};
                                {| extract_text := None |};
                                {| extract_text := Some "" |};
                                {| extract_text := Some " world" |} ] |}
           [ {| extract_text := Some "Hello" |};
             {| extract_text := None |};
             {| extract_text := Some "" |};
             {| extract_text := Some " world" |} ]
           eq_refl).
Defined.

(** ** The pages: what a run keeps of the database *)

Section Preservation.

Variable P : database -> Prop.

Lemma preserves_ret {A} (a : A) : preserves P (ret a).
Proof. intros w Hw. exact Hw. Qed.

Lemma preserves_raise {A} (e : exn) : preserves P (@raise A e).
Proof. intros w Hw. exact Hw. Qed.

Lemma preserves_lift {A} (r : result A) : preserves P (lift r).
Proof. intros w Hw. exact Hw. Qed.

Lemma preserves_bind {A B} (c : M A) (k : A -> M B) :
  preserves P c -> (forall a, preserves P (k a)) -> preserves P (bind c k).
Proof.
  intros Hc Hk w Hw. unfold bind. specialize (Hc w Hw).
  destruct (c w) as [[a|e] w']; cbn in *; auto.
  now apply Hk.
Qed.

Lemma preserves_try_except {A} (body : M A) (handler : exn -> M A) :
  preserves P body -> (forall e, preserves P (handler e)) ->
  preserves P (try_except body handler).
Proof.
  intros Hb Hh w Hw. unfold try_except. specialize (Hb w Hw).
  destruct (body w) as [[a|e] w']; cbn in *; auto.
  destruct (is_Exception e); cbn; auto. now apply Hh.
Qed.

Lemma preserves_getattr {A} (name : string)
      (field : st.session_state -> option A) :
  preserves P (getattr name field).
Proof.
  intros w Hw. unfold getattr. now destruct (field (session_state w)).
Qed.

Lemma preserves_setattr (update : st.session_state -> st.session_state) :
  preserves P (setattr update).
Proof. intros w Hw. exact Hw. Qed.

Lemma preserves_hasattr {A} (field : st.session_state -> option A) :
  preserves P (hasattr field).
Proof. intros w Hw. exact Hw. Qed.

Lemma preserves_call_gemini (env : environment) (prompt : string) :
  preserves P (call_gemini env prompt).
Proof. intros w Hw. exact Hw. Qed.

Lemma preserves_on_db {A} (f : database -> A * database) :
  (forall d, P d -> P (snd (f d))) -> preserves P (on_db f).
Proof.
  intros Hf w Hw. unfold on_db. specialize (Hf (db w) Hw).
  now destruct (f (db w)).
Qed.

Lemma preserves_on_db_try {A} (f : database -> result A * database) :
  (forall d, P d -> P (snd (f d))) -> preserves P (on_db_try f).
Proof.
  intros Hf w Hw. unfold on_db_try. specialize (Hf (db w) Hw).
  now destruct (f (db w)).
Qed.

End Preservation.

Create HintDb keeps.

#[local] Hint Resolve preserves_ret preserves_raise preserves_lift
  preserves_getattr preserves_setattr preserves_hasattr
  preserves_call_gemini : keeps.

(** Applies the rules along the structure of a page. *)
Ltac keeps :=
  repeat first
    [ apply preserves_bind; [|intros ?]
    | apply preserves_try_except; [|intros ?]
    | solve [unfold rerun; auto with keeps]
    | match goal with
      | |- preserves _ (if ?b then _ else _) => destruct b
      | |- preserves _ (match ?o with Some _ => _ | None => _ end) =>
          destruct o
      end ].

Section Roles.

Context {pwd_context : CryptContext}.

Lemma register_user_chat_history (s u p : string) (d : database) :
  chat_history (snd (register_user s u p d)) = chat_history d.
Proof.
  destruct (register_user_effect s u p d) as [-> | (h & _ & _ & ->)];
    reflexivity.
Qed.

Lemma save_message_roles_known (user_id : option Z) (r t : string)
      (d : database) :
  r = "user" \/ r = "assistant" ->
  roles_known d -> roles_known (snd (save_message user_id r t d)).
Proof.
  intros Hr Hd row Hin. cbn in Hin.
  apply in_app_or in Hin as [Hin | [<- | []]]; auto.
Qed.

Lemma main_app_roles_known (env : environment) (ui : st.widgets) :
  preserves roles_known (main_app env ui).
Proof.
  unfold main_app. keeps;
    apply preserves_on_db; intros d Hd; auto using save_message_roles_known.
Qed.

Lemma login_page_roles_known (env : environment) (ui : st.widgets) :
  preserves roles_known (login_page env ui).
Proof.
  unfold login_page. keeps.
  - apply preserves_on_db_try. intros d Hd. now rewrite login_user_read_only.
  - apply preserves_on_db_try. intros d Hd row Hin.
    rewrite register_user_chat_history in Hin. auto.
Qed.

Lemma script_roles_known (env : environment) (ui : st.widgets) :
  preserves roles_known (script env ui).
Proof.
  unfold script.
  apply preserves_bind; [apply preserves_on_db; auto | intros _].
  apply preserves_bind; [auto with keeps | intros present].
  apply preserves_bind; [destruct present; auto with keeps | intros _].
  apply preserves_bind; [auto with keeps | intros logged_in].
  destruct logged_in;
    [apply main_app_roles_known | apply login_page_roles_known].
Qed.

Lemma interact_roles_known (env : environment) (ui : st.widgets) (w : world) :
  roles_known (db w) -> roles_known (db (snd (interact env ui w))).
Proof.
  intros Hw. unfold interact.
  pose proof (script_roles_known env ui w Hw) as H1.
  destruct (script env ui w) as [[[]|e] w1]; cbn in *; auto.
  destruct e; cbn; auto.
  now apply script_roles_known.
Qed.

Lemma client_steps_roles_known
      (steps : list (nat * environment * st.widgets)) (sys : system) :
  roles_known (store sys) -> roles_known (store (client_steps steps sys)).
Proof.
  revert sys. induction steps as [|[[sid env] ui] steps IH]; intros sys Hs;
    cbn; auto.
  apply IH. cbn. now apply interact_roles_known.
Qed.

End Roles.

(** ** The chat turn of [main_app] *)

Lemma truthy_Some (s : string) : s <> "" -> truthy (Some s) = true.
Proof.
  intros H. unfold truthy.
  destruct (String.eqb_spec s ""); [contradiction | reflexivity].
Qed.

Lemma after_turn_rows (user_id : option Z) (q reply : string) (d : database) :
  exists i j : Z,
    chat_history (after_turn user_id q reply d) =
    (chat_history d ++
     [ {| c_id := i; c_user_id := user_id; c_role := "user"; c_content := q |};
       {| c_id := j; c_user_id := user_id; c_role := "assistant";
          c_content := reply |} ])%list.
Proof.
  eexists _, _. unfold after_turn. cbn. rewrite <- List.app_assoc. reflexivity.
Qed.

(** Runs the monadic operations of a page on a world given by its parts. *)
Ltac run_page :=
  unfold bind, ret, getattr, setattr, hasattr, lift, on_db, on_db_try, rerun,
    raise, try_except, call_gemini; cbn.

(** Closes a goal that describes the world a chat turn ends in. *)
Ltac close_turn :=
  eexists; split; [reflexivity|]; cbn;
  repeat split;
  try first
    [ eexists; cbn; rewrite <- List.app_assoc; reflexivity
    | match goal with
      | |- context [ ?m :: (?l ++ _) ++ _ ] =>
          exists (m :: l); cbn; rewrite <- List.app_assoc; reflexivity
      end ].

Section Turn.

Variables (env : environment) (ui : st.widgets) (w : world).
Variables (name : option string) (uid : option Z) (q : string).

Hypothesis Hname : st.username (session_state w) = Some name.
Hypothesis Huid : st.user_id (session_state w) = Some uid.
Hypothesis Hstay : st.button_logout ui = false.
Hypothesis Hasked : st.chat_input ui = Some q.
Hypothesis Hq : q <> "".

(** The turn when the service raises. *)
Lemma main_app_service_raises (doc : string) (e : exn) :
  held_document ui (session_state w) = Ok (Some (Some doc)) ->
  doc <> "" ->
  generate_content env (full_prompt doc q) = Raise e ->
  is_Exception e = true ->
  exists w',
    main_app env ui w = (Ok tt, w') /\
    db w' = after_turn uid q (error_reply e) (db w) /\
    gemini_calls w' = (gemini_calls w ++ [full_prompt doc q])%list /\
    exists shown,
      st.messages (session_state w') =
      Some (shown ++ [ {| role := "user"; content := q |};
                       {| role := "assistant"; content := error_reply e |} ])%list.
Proof.
  destruct w as [d [li ui' un dc ms] calls].
  destruct ui as [sel tu tp bl br fu blo ci]. cbn in *. subst.
  intros Hdoc Hdne Hfail Hexc. unfold held_document in Hdoc. cbn in Hdoc.
  pose proof (truthy_Some q Hq) as Htq.
  pose proof (truthy_Some doc Hdne) as Htd.
  unfold main_app. cbn [st.file_uploader st.button_logout st.chat_input].
  rewrite Htq. cbn in Htd.
  destruct fu as [f|].
  - destruct (extract_text_from_pdf f) as [t|]; [|discriminate].
    injection Hdoc as ->.
    destruct ms as [[|m l]|]; run_page; rewrite Htd; cbn;
      rewrite Hfail; cbn; rewrite Hexc; close_turn.
  - injection Hdoc as ->.
    destruct ms as [[|m l]|]; run_page; rewrite Htd; cbn;
      rewrite Hfail; cbn; rewrite Hexc; close_turn.
Qed.

(** The turn when the service answers. *)
Lemma main_app_service_answers (doc text : string) :
  held_document ui (session_state w) = Ok (Some (Some doc)) ->
  doc <> "" ->
  generate_content env (full_prompt doc q) = Ok text ->
  exists w',
    main_app env ui w = (Ok tt, w') /\
    db w' = after_turn uid q text (db w) /\
    gemini_calls w' = (gemini_calls w ++ [full_prompt doc q])%list /\
    exists shown,
      st.messages (session_state w') =
      Some (shown ++ [ {| role := "user"; content := q |};
                       {| role := "assistant"; content := text |} ])%list.
Proof.
  destruct w as [d [li ui' un dc ms] calls].
  destruct ui as [sel tu tp bl br fu blo ci]. cbn in *. subst.
  intros Hdoc Hdne Hans. unfold held_document in Hdoc. cbn in Hdoc.
  pose proof (truthy_Some q Hq) as Htq.
  pose proof (truthy_Some doc Hdne) as Htd.
  unfold main_app. cbn [st.file_uploader st.button_logout st.chat_input].
  rewrite Htq. cbn in Htd.
  destruct fu as [f|].
  - destruct (extract_text_from_pdf f) as [t|]; [|discriminate].
    injection Hdoc as ->.
    destruct ms as [[|m l]|]; run_page; rewrite Htd; cbn;
      rewrite Hans; close_turn.
  - injection Hdoc as ->.
    destruct ms as [[|m l]|]; run_page; rewrite Htd; cbn;
      rewrite Hans; close_turn.
Qed.


(** The turn when [document_content] was never assigned: the question
    is stored, the read at line 213 raises, and the run ends there. *)
Lemma main_app_document_unset :
  held_document ui (session_state w) = Ok None ->
  exists w' msg,
    main_app env ui w = (Raise (AttributeError msg), w') /\
    db w' = snd (save_message uid "user" q (db w)) /\
    gemini_calls w' = gemini_calls w /\
    exists shown,
      st.messages (session_state w') =
      Some (shown ++ [ {| role := "user"; content := q |} ])%list.
Proof.
  destruct w as [d [li ui' un dc ms] calls].
  destruct ui as [sel tu tp bl br fu blo ci]. cbn in *. subst.
  intros Hdoc. unfold held_document in Hdoc. cbn in Hdoc.
  pose proof (truthy_Some q Hq) as Htq.
  unfold main_app. cbn [st.file_uploader st.button_logout st.chat_input].
  rewrite Htq.
  destruct fu as [f|].
  - destruct (extract_text_from_pdf f) as [t|]; discriminate.
  - injection Hdoc as ->.
    destruct ms as [[|m l]|]; run_page; eexists _, _;
      (split; [reflexivity|]); cbn; repeat split;
      first [ eexists; reflexivity | exists (m :: l); reflexivity ].
Qed.

End Turn.

(** C5. In a run of [main_app] that receives a question while the session
    holds a non-empty document text, if the request to the model service
    raises an [Exception], the run still ends normally: the reply is the
    text ["An error occurred: "] followed by the text of the exception,
    and the run appends to [chat_history] the user's row with the
    question and then the assistant's row with that reply, the very two
    [save_message] calls of a turn that was answered. One request was
    sent, and the transcript of the session ends with the same two
    entries. *)
Theorem service_failure_is_returned_and_stored
        (env : environment) (ui : st.widgets) (w : world)
        (name : option string) (uid : option Z) (q doc : string) (e : exn) :
  st.username (session_state w) = Some name ->
  st.user_id (session_state w) = Some uid ->
  st.button_logout ui = false ->
  st.chat_input ui = Some q ->
  q <> "" ->
  held_document ui (session_state w) = Ok (Some (Some doc)) ->
  doc <> "" ->
  generate_content env (full_prompt doc q) = Raise e ->
  is_Exception e = true ->
  exists w',
    main_app env ui w = (Ok tt, w') /\
    db w' = after_turn uid q ("An error occurred: " ++ str e) (db w) /\
    (exists i j : Z,
        chat_history (db w') =
        (chat_history (db w) ++
         [ {| c_id := i; c_user_id := uid; c_role := "user"; c_content := q |};
           {| c_id := j; c_user_id := uid; c_role := "assistant";
              c_content := "An error occurred: " ++ str e |} ])%list) /\
    gemini_calls w' = (gemini_calls w ++ [full_prompt doc q])%list /\
    exists shown,
      st.messages (session_state w') =
      Some (shown ++
            [ {| role := "user"; content := q |};
              {| role := "assistant";
                 content := "An error occurred: " ++ str e |} ])%list.
Proof.
  intros Hname Huid Hstay Hasked Hq Hdoc Hdne Hfail Hexc.
  destruct (main_app_service_raises env ui w name uid q
              Hname Huid Hstay Hasked Hq doc e Hdoc Hdne Hfail Hexc)
    as (w' & Hrun & Hdb & Hcalls & Hshown).
  exists w'. repeat split; auto.
  rewrite Hdb. apply after_turn_rows.
Qed.

(** With ["alice"] logged in and the two-page file in the uploader, a
    question is asked while the service's client raises. *)
Lemma service_failure_is_returned_and_stored_witness :
  exists w',
    main_app Example.failing
             (Example.ask (Some Example.two_pages) "What does it say?")
             Example.alice_in = (Ok tt, w') /\
    db w' = after_turn (Some 1) "What does it say?"
                       "An error occurred: 429 quota exceeded"
                       (db Example.alice_in).
Proof.
  destruct (service_failure_is_returned_and_stored
              Example.failing
              (Example.ask (Some Example.two_pages) "What does it say?")
              Example.alice_in (Some "alice") (Some 1)
              "What does it say?" "Hello" (ServiceError "429 quota exceeded"))
    as (w' & Hrun & Hdb & _); try reflexivity; try discriminate.
  exists w'. split; [exact Hrun | exact Hdb].
Defined.

(** ** Logout *)

(** What the [Logout] button does: four attributes are assigned, the
    transcript in [messages] is not, and the run stops for a rerun. *)
Lemma main_app_logout (env : environment) (ui : st.widgets) (w : world)
      (name : option string) :
  st.username (session_state w) = Some name ->
  st.file_uploader ui = None ->
  st.button_logout ui = true ->
  main_app env ui w =
  (Raise RerunException,
   {| db := db w;
      session_state :=
        {| st.logged_in := Some false;
           st.user_id := Some None;
           st.username := Some None;
           st.document_content := Some None;
           st.messages := st.messages (session_state w) |};
      gemini_calls := gemini_calls w |}).
Proof.
  destruct w as [d [li ui' un dc ms] calls].
  destruct ui as [sel tu tp bl br fu blo ci]. cbn.
  intros -> -> ->. reflexivity.
Qed.

(** C1, at the session of [Example]. When ["alice"] presses [Logout], the
    flag, the identifier, the username and the document text are reset,
    but [messages] keeps her transcript; when ["bob"] then logs in from
    the same session, [messages] is not empty, so lines 194-195 do not
    read his history, and his session shows her two messages although
    the database holds none for him. *)
Theorem logout_keeps_transcript :
  session_state Example.alice_out =
  {| st.logged_in := Some false;
     st.user_id := Some None;
     st.username := Some None;
     st.document_content := Some None;
     st.messages :=
       Some [ {| role := "user"; content := "What does it say?" |};
              {| role := "assistant"; content := "It says Hello." |} ] |} /\
  st.user_id (session_state Example.bob_in) = Some (Some 2) /\
  st.messages (session_state Example.bob_in) =
  Some [ {| role := "user"; content := "What does it say?" |};
         {| role := "assistant"; content := "It says Hello." |} ] /\
  fst (get_chat_history (Some 2) (db Example.bob_in)) = [].
Proof. vm_compute. repeat split; reflexivity. Qed.

(** ** A question before any upload *)

(** C6, at the session of [Example]. ["alice"] has just logged in and has
    uploaded nothing, so [document_content] was never assigned. Her
    question makes no request to the service, but the run does not reach
    the reply of the [else] branch: the read at line 213 raises
    [AttributeError], and the transcript holds her question alone. *)
Theorem question_before_upload_raises :
  st.document_content (session_state Example.alice_in) = None /\
  fst Example.alice_asked_early =
  Raise (AttributeError "st.session_state has no attribute document_content") /\
  gemini_calls (snd Example.alice_asked_early) = [] /\
  st.messages (session_state (snd Example.alice_asked_early)) =
  Some [ {| role := "user"; content := "What does it say?" |} ].
Proof. vm_compute. repeat split; reflexivity. Qed.

(** C9, at the session of [Example]. The same question of ["alice"]
    before any upload appends one row to [chat_history], the user's; the
    assistant's row is never written. *)
Theorem question_before_upload_stores_one_row :
  chat_history (db Example.alice_in) = [] /\
  chat_history (db (snd Example.alice_asked_early)) =
  [ {| c_id := 1; c_user_id := Some 1; c_role := "user";
       c_content := "What does it say?" |} ].
Proof. vm_compute. split; reflexivity. Qed.

(** * Further properties *)

(** ** The stores *)

Section StoreMore.

Context {pwd_context : CryptContext}.

Lemma fetch_user_app (u : string) (d d' : database) (more : list user_row)
      (found : Z * string) :
  users d' = (users d ++ more)%list ->
  fetch_user u d = Some found -> fetch_user u d' = Some found.
Proof.
  unfold fetch_user. intros ->. rewrite List.filter_app.
  destruct (List.filter (username_matches u) (users d)) as [|r l];
    [discriminate|].
  cbn. auto.
Qed.

Lemma fetch_user_new (u h : string) (i : Z) (d d' : database) :
  users d' = (users d ++ [ {| u_id := i; u_username := u;
                              u_password_hash := h |} ])%list ->
  (forall row, In row (users d) -> u_username row <> u) ->
  fetch_user u d' = Some (i, h).
Proof.
  unfold fetch_user. intros -> Hfree. rewrite List.filter_app.
  rewrite (filter_no_match (username_matches u) (users d)).
  - cbn. unfold username_matches. cbn. now rewrite String.eqb_refl.
  - intros row Hin. unfold username_matches.
    destruct (String.eqb_spec u (u_username row)) as [Heq|]; auto.
    exfalso. apply (Hfree row Hin). now symmetry.
Qed.

(** X1. Registering and then logging in, with a context that verifies by
    hashing again: on any database where the username is free, when the
    context returns a hash for the password, after [register_user] the
    same password logs the user in with the key of the new row; and
    another password logs in exactly when the context hashes it, under
    the same salt, to the same string. *)
Theorem register_then_login
        (salt username password h : string) (d : database) :
  verify_rehashes pwd_context ->
  (forall row, In row (users d) -> u_username row <> username) ->
  ctx_hash salt password = Ok h ->
  let d' := snd (register_user salt username password d) in
  fst (login_user username password d') =
  Ok (Some (next_rowid (map u_id (users d)) (users_seq d))) /\
  (forall other : string,
      fst (login_user username other d') =
      Ok (Some (next_rowid (map u_id (users d)) (users_seq d))) <->
      ctx_hash salt other = Ok h).
Proof.
  intros Hscheme Hfree Hhash d'.
  pose proof (username_free username d Hfree) as Hno.
  assert (Hfetch : fetch_user username d' =
                   Some (next_rowid (map u_id (users d)) (users_seq d), h)).
  { apply fetch_user_new with (d := d); auto.
    unfold d'. now rewrite (register_user_free _ _ _ h _ Hhash Hno). }
  assert (Hany : forall other : string,
             fst (login_user username other d') =
             Ok (Some (next_rowid (map u_id (users d)) (users_seq d))) <->
             ctx_hash salt other = Ok h).
  { intros other. unfold login_user. rewrite Hfetch. unfold verify_password.
    rewrite <- (Hscheme salt password other h Hhash).
    destruct (ctx_verify other h) as [[|]|]; cbn; split;
      try discriminate; reflexivity. }
  split; [|exact Hany]. now apply Hany.
Qed.

Lemma perform_extends (c : store_call) (d : database) : extends d (perform c d).
Proof.
  destruct c as [salt u p | u p | uid | uid r t]; cbn.
  - destruct (register_user_effect salt u p d) as [-> | (h & _ & _ & ->)];
      cbn; split; eexists; try reflexivity; now rewrite List.app_nil_r.
  - rewrite login_user_read_only.
    split; exists []; now rewrite List.app_nil_r.
  - split; exists []; now rewrite List.app_nil_r.
  - split; eexists; try reflexivity. now rewrite List.app_nil_r.
Qed.

Lemma extends_trans (d0 d1 d2 : database) :
  extends d0 d1 -> extends d1 d2 -> extends d0 d2.
Proof.
  intros [[u1 Hu1] [c1 Hc1]] [[u2 Hu2] [c2 Hc2]]. split.
  - exists (u1 ++ u2)%list. now rewrite Hu2, Hu1, List.app_assoc.
  - exists (c1 ++ c2)%list. now rewrite Hc2, Hc1, List.app_assoc.
Qed.

Lemma extends_refl (d : database) : extends d d.
Proof. split; exists []; now rewrite List.app_nil_r. Qed.

Lemma perform_all_extends (cs : list store_call) (d : database) :
  extends d (perform_all cs d).
Proof.
  revert d. induction cs as [|c cs IH]; intros d; cbn.
  - apply extends_refl.
  - eapply extends_trans; [apply perform_extends | apply IH].
Qed.

(** X2. The stores only ever add rows: whatever calls follow, every row
    of both tables stays where it is with the content it has; so a login
    that succeeds keeps succeeding with the same identifier, and a
    username that is taken stays refused by [register_user]. *)
Theorem accounts_outlive_later_calls (cs : list store_call) (d : database) :
  extends d (perform_all cs d) /\
  (forall (username password : string) (id : Z),
      fst (login_user username password d) = Ok (Some id) ->
      fst (login_user username password (perform_all cs d)) = Ok (Some id)) /\
  (forall salt username password : string,
      fst (register_user salt username password d) = Ok false ->
      fst (register_user salt username password (perform_all cs d)) = Ok false).
Proof.
  pose proof (perform_all_extends cs d) as Hext.
  split; [exact Hext|]. destruct Hext as [[more Hmore] _]. split.
  - intros username password id. unfold login_user.
    destruct (fetch_user username d) as [[i h]|] eqn:Hf; [|discriminate].
    rewrite (fetch_user_app username d _ more (i, h) Hmore Hf).
    destruct (verify_password password h) as [[|]|]; auto.
  - intros salt username password.
    destruct (ctx_hash salt password) as [h|e] eqn:Hhash.
    + destruct (existsb (username_matches username) (users d)) eqn:Htaken.
      * intros _. rewrite (register_user_taken _ _ _ h _ Hhash); auto.
        rewrite Hmore, existsb_app, Htaken. reflexivity.
      * rewrite (register_user_free _ _ _ h _ Hhash Htaken). discriminate.
    + now rewrite !(register_user_refused _ _ _ _ e Hhash).
Qed.

End StoreMore.

(** After ["alice"] registers on the fresh database, ["pw123"] logs her in
    as user 1 and ["pw124"] does not. *)
Lemma register_then_login_witness :
  fst (@login_user example_context "alice" "pw123"
         (snd (@register_user example_context "s" "alice" "pw123" fresh_db))) =
  Ok (Some 1) /\
  fst (@login_user example_context "alice" "pw124"
         (snd (@register_user example_context "s" "alice" "pw123" fresh_db))) <>
  Ok (Some 1).
Proof.
  destruct (@register_then_login example_context "s" "alice" "pw123" "spw123"
              fresh_db (bcrypt_like_rehashes _))
    as [Hsame Hother].
  - intros row Hin. destruct Hin.
  - reflexivity.
  - split; [exact Hsame|]. intros Hin. apply Hother in Hin. discriminate.
Defined.

(** ** Keys *)

Lemma counted_bound (ids : list Z) (s : Z) :
  counted ids s -> fold_right Z.max 0 ids <= s.
Proof.
  intros [-> Hids]. remember (length ids) as n eqn:Hn. rewrite Hids.
  clear Hids Hn ids.
  assert (H : forall k m : nat,
             fold_right Z.max 0 (map Z.of_nat (List.seq (S k) m))
             <= Z.of_nat (k + m)).
  { intros k m. revert k. induction m as [|m IH]; intros k; cbn [List.seq map fold_right].
    - lia.
    - specialize (IH (S k)). lia. }
  specialize (H 0%nat n). now rewrite Nat.add_0_l in H.
Qed.

Lemma counted_next (ids : list Z) (s : Z) :
  counted ids s ->
  next_rowid ids s = Z.of_nat (S (length ids)) /\
  counted (ids ++ [next_rowid ids s]) (next_rowid ids s).
Proof.
  intros Hc. pose proof (counted_bound ids s Hc) as Hb.
  destruct Hc as [Hs Hids].
  assert (Hnext : next_rowid ids s = Z.of_nat (S (length ids))).
  { unfold next_rowid. lia. }
  split; [exact Hnext|]. rewrite Hnext. split.
  - rewrite length_app. cbn. f_equal. lia.
  - rewrite length_app. cbn [length].
    replace (length ids + 1)%nat with (S (length ids)) by lia.
    rewrite List.seq_S, map_app. cbn [map]. now rewrite <- Hids.
Qed.

Section KeysMore.

Context {pwd_context : CryptContext}.

Lemma register_user_keys_counted (s u p : string) (d : database) :
  keys_counted d -> keys_counted (snd (register_user s u p d)).
Proof.
  intros [Hu Hc].
  destruct (register_user_effect s u p d) as [-> | (h & _ & _ & ->)];
    [now split|].
  split; [|exact Hc]. cbn. rewrite map_app. cbn.
  now apply counted_next.
Qed.

Lemma save_message_keys_counted (uid : option Z) (r t : string) (d : database) :
  keys_counted d -> keys_counted (snd (save_message uid r t d)).
Proof.
  intros [Hu Hc]. split; [exact Hu|]. cbn. rewrite map_app. cbn.
  now apply counted_next.
Qed.

Lemma perform_keys_counted (c : store_call) (d : database) :
  keys_counted d -> keys_counted (perform c d).
Proof.
  destruct c as [salt u p | u p | uid | uid r t]; cbn; intros Hd.
  - now apply register_user_keys_counted.
  - now rewrite login_user_read_only.
  - exact Hd.
  - now apply save_message_keys_counted.
Qed.

Lemma fresh_db_keys_counted : keys_counted (init_db None).
Proof. repeat split. Qed.

(** X3. Keys are handed out 1, 2, 3, ... in the order the rows are
    inserted: in every database that the stores' functions build from the
    one [init_db] creates, the n-th row of each table has key n. The keys
    of a table are therefore distinct, and none is zero. *)
Theorem keys_count_up (cs : list store_call) :
  let d := perform_all cs (init_db None) in
  map u_id (users d) = map Z.of_nat (List.seq 1 (length (users d))) /\
  map c_id (chat_history d) =
  map Z.of_nat (List.seq 1 (length (chat_history d))) /\
  NoDup (map u_id (users d)) /\
  (forall row, In row (users d) -> u_id row <> 0).
Proof.
  intros d.
  assert (Hk : keys_counted d).
  { unfold d. generalize fresh_db_keys_counted. generalize (init_db None).
    induction cs as [|c cs IH]; intros d0 Hd0; cbn; auto.
    apply IH. now apply perform_keys_counted. }
  destruct Hk as [[_ Hu] [_ Hc]].
  rewrite !length_map in Hu, Hc. repeat split; auto.
  - rewrite Hu. apply NoDup_fmap_2; [intros x y; lia | apply NoDup_seq].
  - intros row Hin Hzero.
    assert (Hin' : In (u_id row) (map u_id (users d))) by now apply in_map.
    rewrite Hu in Hin'. apply in_map_iff in Hin' as (n & Hn & Hseq).
    apply in_seq in Hseq. lia.
Qed.

(** X4. Reading after writing: on any database, after
    [save_message v r t] the history of user [u] is the history before,
    followed by the new message when [v] is [u] and by nothing
    otherwise; messages saved for another user, or with no user, never
    show in it. A query with no user ([None]) returns the empty list on
    every database. *)
Theorem history_after_save
        (u : Z) (v : option Z) (r t : string) (d : database) :
  fst (get_chat_history (Some u) (snd (save_message v r t d))) =
  (fst (get_chat_history (Some u) d) ++
   (if decide (v = Some u) then [ {| role := r; content := t |} ] else []))%list /\
  fst (get_chat_history None (snd (save_message v r t d))) = [].
Proof.
  split.
  - unfold get_chat_history. cbn [fst snd save_message chat_history].
    rewrite List.filter_app, map_app. f_equal. cbn.
    unfold user_id_matches. cbn.
    destruct v as [v|]; [|now rewrite decide_False].
    destruct (Z.eqb_spec u v) as [->|Hne].
    + now rewrite decide_True.
    + rewrite decide_False; [reflexivity | congruence].
  - unfold get_chat_history. cbn [fst].
    now rewrite (filter_no_match (user_id_matches None)).
Qed.

End KeysMore.

(** ** The application over the stores *)

Section PagesPreserve.

Context {pwd_context : CryptContext}.

Variable P : database -> Prop.

Hypothesis register_keeps :
  forall (s u p : string) (d : database),
    P d -> P (snd (register_user s u p d)).

Hypothesis save_keeps :
  forall (uid : option Z) (r t : string) (d : database),
    P d -> P (snd (save_message uid r t d)).

Lemma main_app_preserves (env : environment) (ui : st.widgets) :
  preserves P (main_app env ui).
Proof.
  unfold main_app. keeps; apply preserves_on_db; intros d Hd; auto.
Qed.

Lemma login_page_preserves (env : environment) (ui : st.widgets) :
  preserves P (login_page env ui).
Proof.
  unfold login_page. keeps.
  - apply preserves_on_db_try. intros d Hd. now rewrite login_user_read_only.
  - apply preserves_on_db_try. auto.
Qed.

Lemma script_preserves (env : environment) (ui : st.widgets) :
  preserves P (script env ui).
Proof.
  unfold script.
  apply preserves_bind; [apply preserves_on_db; auto | intros _].
  apply preserves_bind; [auto with keeps | intros present].
  apply preserves_bind; [destruct present; auto with keeps | intros _].
  apply preserves_bind; [auto with keeps | intros logged_in].
  destruct logged_in; [apply main_app_preserves | apply login_page_preserves].
Qed.

Lemma interact_preserves (env : environment) (ui : st.widgets) (w : world) :
  P (db w) -> P (db (snd (interact env ui w))).
Proof.
  intros Hw. unfold interact.
  pose proof (script_preserves env ui w Hw) as H1.
  destruct (script env ui w) as [[[]|e] w1]; cbn in *; auto.
  destruct e; cbn; auto.
  now apply script_preserves.
Qed.

Lemma client_steps_preserve
      (steps : list (nat * environment * st.widgets)) (sys : system) :
  P (store sys) -> P (store (client_steps steps sys)).
Proof.
  revert sys. induction steps as [|[[sid env] ui] steps IH]; intros sys Hs;
    cbn; auto.
  apply IH. cbn. now apply interact_preserves.
Qed.

End PagesPreserve.

Section Application.

Context {pwd_context : CryptContext}.

Lemma register_user_extends (d0 : database) (s u p : string) (d : database) :
  extends d0 d -> extends d0 (snd (register_user s u p d)).
Proof.
  intros Hd. eapply extends_trans; [exact Hd|].
  apply (perform_extends (call_register s u p)).
Qed.

Lemma save_message_extends (d0 : database) (uid : option Z) (r t : string)
      (d : database) :
  extends d0 d -> extends d0 (snd (save_message uid r t d)).
Proof.
  intros Hd. eapply extends_trans; [exact Hd|].
  apply (perform_extends (call_append uid r t)).
Qed.

(** X5. The application only ever adds rows: after any sequence of
    interactions of any clients, started on any database, both tables
    begin with the rows they had, unchanged and in place. No page updates
    or deletes a user or a message. *)
Theorem application_is_append_only
        (steps : list (nat * environment * st.widgets)) (sys : system) :
  extends (store sys) (store (client_steps steps sys)).
Proof.
  apply (client_steps_preserve (extends (store sys))).
  - apply register_user_extends.
  - apply save_message_extends.
  - apply extends_refl.
Qed.

(** X6. In every state that the application reaches from the database
    [init_db] creates, no two rows of [users] hold the same username, and
    the keys of both tables count up from 1 in row order; so every account
    has its own identifier, and none is zero. *)
Theorem application_keeps_accounts_distinct
        (steps : list (nat * environment * st.widgets)) :
  let d := store (client_steps steps initial) in
  usernames_unique d /\
  keys_counted d /\
  NoDup (map u_id (users d)) /\
  (forall row, In row (users d) -> u_id row <> 0).
Proof.
  intros d.
  assert (Hu : usernames_unique d).
  { apply (client_steps_preserve usernames_unique).
    - intros s u p d0. apply (perform_keeps_usernames_unique (call_register s u p)).
    - intros uid r t d0. apply (perform_keeps_usernames_unique (call_append uid r t)).
    - apply fresh_db_invariants. }
  assert (Hk : keys_counted d).
  { apply (client_steps_preserve keys_counted).
    - apply register_user_keys_counted.
    - apply save_message_keys_counted.
    - apply fresh_db_keys_counted. }
  repeat split; auto; try apply Hk.
  - destruct Hk as [[_ Hids] _]. rewrite length_map in Hids. rewrite Hids.
    apply NoDup_fmap_2; [intros x y; lia | apply NoDup_seq].
  - intros row Hin Hzero. destruct Hk as [[_ Hids] _].
    rewrite length_map in Hids.
    assert (Hin' : In (u_id row) (map u_id (users d))) by now apply in_map.
    rewrite Hids in Hin'. apply in_map_iff in Hin' as (n & Hn & Hseq).
    apply in_seq in Hseq. lia.
Qed.

End Application.

(** ** The pages, case by case *)

(** Splits a page that has been unfolded on the values it branches on. *)
Ltac split_cases :=
  repeat (match goal with
          | |- context [if negb (String.eqb ?a ?b) then _ else _] =>
              destruct (String.eqb a b) eqn:?
          | |- context [is_Exception ?e] => destruct e
          | |- context [match ?x with _ => _ end] =>
              first [ is_var x
                    | match x with
                      | extract_text_from_pdf _ => idtac
                      | generate_content _ _ => idtac
                      end ];
              destruct x eqn:?
          end; cbn).

(** [main_app] assigns [logged_in], [user_id] and [username] in its
    [Logout] branch only. *)
Lemma main_app_auth_fields (env : environment) (ui : st.widgets) (w : world) :
  (st.logged_in (session_state (snd (main_app env ui w))) =
   st.logged_in (session_state w) /\
   st.user_id (session_state (snd (main_app env ui w))) =
   st.user_id (session_state w) /\
   st.username (session_state (snd (main_app env ui w))) =
   st.username (session_state w)) \/
  st.logged_in (session_state (snd (main_app env ui w))) = Some false.
Proof.
  destruct w as [d [li uid un dc ms] calls].
  destruct ui as [sel tu tp bl br fu blo ci].
  unfold main_app.
  destruct un, fu, blo, ms as [[|m l]|], uid, ci; run_page; split_cases; auto.
Qed.

(** X7. A run of [main_app] sends at most one request to the model
    service, and only for a question: either the log of requests is the
    one before the run, or a non-empty question was submitted and the log
    has one more entry, the prompt built from a non-empty document text
    and that question. *)
Theorem main_app_sends_at_most_one_request
        (env : environment) (ui : st.widgets) (w : world) :
  gemini_calls (snd (main_app env ui w)) = gemini_calls w \/
  exists context q : string,
    st.chat_input ui = Some q /\ q <> "" /\ context <> "" /\
    gemini_calls (snd (main_app env ui w)) =
    (gemini_calls w ++ [full_prompt context q])%list.
Proof.
  destruct w as [d [li uid un dc ms] calls].
  destruct ui as [sel tu tp bl br fu blo ci].
  unfold main_app.
  destruct un, fu, blo, ms as [[|m l]|], uid, ci; run_page; split_cases; auto;
    right; eexists _, _; (split; [reflexivity|]);
    repeat split; try reflexivity;
    intros ->; discriminate.
Qed.

Section PagesMore.

Context {pwd_context : CryptContext}.

(** What a run of [login_page] can do: nothing; or register, which
    touches the database alone, and raises what [register_user] raises;
    or log in, which touches the session alone and asks for a rerun; or
    raise what [login_user] raises, with nothing changed. *)
Lemma login_page_outcome (env : environment) (ui : st.widgets) (w : world) :
  login_page env ui w = (Ok tt, w) \/
  (String.eqb (st.selectbox ui) "Login" = false /\
   st.button_register ui = true /\
   login_page env ui w =
   (match fst (register_user (salt env) (st.text_input_username ui)
                             (st.text_input_password ui) (db w)) with
    | Ok _ => Ok tt
    | Raise e => Raise e
    end,
    {| db := snd (register_user (salt env) (st.text_input_username ui)
                                (st.text_input_password ui) (db w));
       session_state := session_state w;
       gemini_calls := gemini_calls w |})) \/
  (exists id : Z,
      String.eqb (st.selectbox ui) "Login" = true /\
      st.button_login ui = true /\
      fst (login_user (st.text_input_username ui)
                      (st.text_input_password ui) (db w)) = Ok (Some id) /\
      id <> 0 /\
      login_page env ui w =
      (Raise RerunException,
       {| db := db w;
          session_state :=
            st.set_username (Some (st.text_input_username ui))
              (st.set_user_id (Some id)
                 (st.set_logged_in true (session_state w)));
          gemini_calls := gemini_calls w |})) \/
  (exists e : exn,
      String.eqb (st.selectbox ui) "Login" = true /\
      st.button_login ui = true /\
      fst (login_user (st.text_input_username ui)
                      (st.text_input_password ui) (db w)) = Raise e /\
      login_page env ui w = (Raise e, w)).
Proof.
  destruct w as [d s calls]. destruct ui as [sel tu tp bl br fu blo ci].
  unfold login_page. cbn.
  destruct (String.eqb sel "Login"); [destruct bl | destruct br]; auto.
  - run_page.
    pose proof (login_user_read_only tu tp d) as Hro.
    destruct (login_user tu tp d) as [[[id|]|e] d'] eqn:Hl; cbn in Hro; subst d';
      cbn; auto.
    + destruct (Z.eqb_spec id 0) as [->|Hne]; cbn; auto.
      right. right. left. exists id. repeat split; auto.
    + right. right. right. exists e. repeat split; auto.
  - run_page. right. left. repeat split.
    destruct (register_user (salt env) tu tp d) as [[ok|e] d']; reflexivity.
Qed.

(** [main_app] with nothing uploaded, pressed or asked only reads. *)
Lemma main_app_idle (env : environment) (ui : st.widgets) (w : world) :
  st.file_uploader ui = None ->
  st.button_logout ui = false ->
  st.chat_input ui = None ->
  db (snd (main_app env ui w)) = db w /\
  gemini_calls (snd (main_app env ui w)) = gemini_calls w /\
  fst (main_app env ui w) <> Raise RerunException.
Proof.
  destruct w as [d [li uid un dc ms] calls].
  destruct ui as [sel tu tp bl br fu blo ci]. cbn.
  intros -> -> ->. unfold main_app.
  destruct un, ms as [[|m l]|], uid; run_page; repeat split; discriminate.
Qed.

(** One run of the script, by the page it shows. *)
Lemma script_shows (env : environment) (ui : st.widgets) (w : world) :
  script env ui w =
  match st.logged_in (session_state w) with
  | Some true => main_app env ui w
  | Some false => login_page env ui w
  | None =>
      login_page env ui
        {| db := db w;
           session_state := st.set_logged_in false (session_state w);
           gemini_calls := gemini_calls w |}
  end.
Proof.
  destruct w as [d [li uid un dc ms] calls]. unfold script.
  destruct li as [[|]|]; reflexivity.
Qed.

(** With no button pressed, [login_page] does nothing. *)
Lemma login_page_released (env : environment) (ui : st.widgets) (w : world) :
  login_page env (released ui) w = (Ok tt, w).
Proof.
  destruct (login_page_outcome env (released ui) w)
    as [H | [(_ & Hpress & _) | [(id & _ & Hpress & _) | (e & _ & Hpress & _)]]];
    auto; discriminate.
Qed.

End PagesMore.

(** ** Sessions *)

Section Sessions.

Context {pwd_context : CryptContext}.

Lemma names_account_more (rows more : list user_row) (s : st.session_state) :
  names_account rows s -> names_account (rows ++ more) s.
Proof.
  intros Hs Hin. destruct (Hs Hin) as (row & Hrow & Hrest).
  exists row. split; [apply in_or_app; now left | exact Hrest].
Qed.

Lemma main_app_users (env : environment) (ui : st.widgets) (w : world) :
  users (db (snd (main_app env ui w))) = users (db w).
Proof.
  apply (main_app_preserves (fun d => users d = users (db w))); auto.
Qed.

Lemma main_app_names_account (env : environment) (ui : st.widgets) (w : world) :
  names_account (users (db w)) (session_state w) ->
  names_account (users (db (snd (main_app env ui w))))
                (session_state (snd (main_app env ui w))).
Proof.
  intros Hw. rewrite main_app_users.
  destruct (main_app_auth_fields env ui w) as [(Hl & Hu & Hn) | Hout].
  - intros Hin. rewrite Hl in Hin. destruct (Hw Hin) as (row & Hrow).
    exists row. now rewrite Hu, Hn.
  - intros Hin. rewrite Hout in Hin. discriminate.
Qed.

Lemma login_page_names_account (env : environment) (ui : st.widgets) (w : world) :
  names_account (users (db w)) (session_state w) ->
  names_account (users (db (snd (login_page env ui w))))
                (session_state (snd (login_page env ui w))).
Proof.
  intros Hw.
  destruct (login_page_outcome env ui w)
    as [-> | [(_ & _ & ->) | [(id & _ & _ & Hlogin & Hid & ->)
                             | (e & _ & _ & _ & ->)]]]; cbn; auto.
  - destruct (perform_extends
                (call_register (salt env) (st.text_input_username ui)
                               (st.text_input_password ui)) (db w))
      as [[more Hmore] _].
    cbn in Hmore. rewrite Hmore. now apply names_account_more.
  - intros _. unfold login_user in Hlogin.
    destruct (fetch_user (st.text_input_username ui) (db w))
      as [[i h]|] eqn:Hf; [|discriminate].
    destruct (verify_password (st.text_input_password ui) h) as [[|]|];
      try discriminate.
    cbn in Hlogin. injection Hlogin as ->.
    apply fetch_user_Some in Hf as (row & Hin & Hu & Hi & _).
    exists row. subst. repeat split; auto.
    cbn. now rewrite Hu.
Qed.

Lemma script_names_account (env : environment) (ui : st.widgets) (w : world) :
  names_account (users (db w)) (session_state w) ->
  names_account (users (db (snd (script env ui w))))
                (session_state (snd (script env ui w))).
Proof.
  intros Hw. rewrite script_shows.
  destruct (st.logged_in (session_state w)) as [[|]|] eqn:Hl.
  - now apply main_app_names_account.
  - now apply login_page_names_account.
  - apply login_page_names_account. cbn. intros Hin. discriminate.
Qed.

Lemma interact_names_account (env : environment) (ui : st.widgets) (w : world) :
  names_account (users (db w)) (session_state w) ->
  names_account (users (db (snd (interact env ui w))))
                (session_state (snd (interact env ui w))).
Proof.
  intros Hw. unfold interact.
  pose proof (script_names_account env ui w Hw) as H1.
  destruct (script env ui w) as [[[]|e] w1]; cbn in *; auto.
  destruct e; cbn; auto.
  now apply script_names_account.
Qed.

Lemma client_step_names_accounts
      (sid : nat) (env : environment) (ui : st.widgets) (sys : system) :
  sessions_name_accounts sys ->
  sessions_name_accounts (client_step sid env ui sys).
Proof.
  intros Hsys sid' s'. unfold client_step. cbn.
  set (w := {| db := store sys;
               session_state := default st.empty (sessions sys !! sid);
               gemini_calls := [] |}).
  destruct (decide (sid = sid')) as [<-|Hne].
  - rewrite lookup_insert_eq. intros [= <-].
    apply interact_names_account. cbn.
    destruct (sessions sys !! sid) as [s0|] eqn:Hs0; cbn.
    + now apply Hsys with (sid := sid).
    + intros Hin. discriminate.
  - rewrite lookup_insert_ne by exact Hne. intros Hs'.
    assert (Hext : extends (store sys) (db (snd (interact env ui w)))).
    { apply (interact_preserves (extends (store sys))).
      - apply register_user_extends.
      - apply save_message_extends.
      - apply extends_refl. }
    destruct Hext as [[more Hmore] _]. rewrite Hmore.
    apply names_account_more. now apply Hsys with (sid := sid').
Qed.

Lemma client_steps_name_accounts
      (steps : list (nat * environment * st.widgets)) (sys : system) :
  sessions_name_accounts sys ->
  sessions_name_accounts (client_steps steps sys).
Proof.
  revert sys. induction steps as [|[[sid env] ui] steps IH]; intros sys Hs;
    cbn; auto.
  apply IH. now apply client_step_names_accounts.
Qed.

(** X8. Every logged-in session names an existing account: in every
    state that the application reaches from the database [init_db]
    creates, a session whose [logged_in] is [True] holds in [user_id] and
    [username] the key and the username of one row of [users], and that
    key is not zero. *)
Theorem logged_in_sessions_name_accounts
        (steps : list (nat * environment * st.widgets))
        (sid : nat) (s : st.session_state) :
  sessions (client_steps steps initial) !! sid = Some s ->
  st.logged_in s = Some true ->
  exists row,
    In row (users (store (client_steps steps initial))) /\
    u_id row <> 0 /\
    st.user_id s = Some (Some (u_id row)) /\
    st.username s = Some (Some (u_username row)).
Proof.
  intros Hs. apply (client_steps_name_accounts steps initial) with (sid := sid).
  - intros sid0 s0 Hlook. cbn in Hlook. rewrite lookup_empty in Hlook.
    discriminate.
  - exact Hs.
Qed.

Lemma script_released_ends (env : environment) (ui : st.widgets) (w : world) :
  fst (script env (released ui) w) <> Raise RerunException.
Proof.
  rewrite script_shows.
  destruct (st.logged_in (session_state w)) as [[|]|];
    rewrite ?login_page_released; try discriminate.
  now apply main_app_idle.
Qed.

Lemma script_released_anonymous
      (env : environment) (ui : st.widgets) (w : world) :
  st.logged_in (session_state w) = Some false ->
  script env (released ui) w = (Ok tt, w).
Proof.
  intros Hanon. rewrite script_shows, Hanon. apply login_page_released.
Qed.

(** X9. A rerun is the last run of an interaction: whatever the session,
    the widgets and the outside are, the run that follows [st.rerun()]
    does not ask for another, so an interaction never ends on a pending
    rerun. *)
Theorem interact_ends_without_pending_rerun
        (env : environment) (ui : st.widgets) (w : world) :
  fst (interact env ui w) <> Raise RerunException.
Proof.
  unfold interact.
  destruct (script env ui w) as [[[]|e] w1] eqn:Hrun; cbn; try discriminate.
  destruct e; cbn; try discriminate.
  apply script_released_ends.
Qed.

(** X10. A session that is not logged in cannot write to the
    conversation or reach the model service: whatever the widgets hold,
    one interaction (the login page, and the main page that follows a
    successful login) leaves [chat_history] and the log of requests as
    they were. *)
Theorem anonymous_session_cannot_chat
        (env : environment) (ui : st.widgets) (w : world) :
  st.logged_in (session_state w) <> Some true ->
  chat_history (db (snd (interact env ui w))) = chat_history (db w) /\
  gemini_calls (snd (interact env ui w)) = gemini_calls w.
Proof.
  intros Hanon.
  assert (Hpage : forall w0 : world,
             st.logged_in (session_state w0) = Some false ->
             (let w1 := snd (match login_page env ui w0 with
                              | (Raise RerunException, w') =>
                                  script env (released ui) w'
                              | outcome => outcome
                              end) in
              chat_history (db w1) = chat_history (db w0) /\
              gemini_calls w1 = gemini_calls w0)).
  { intros w0 Hout.
    destruct (login_page_outcome env ui w0)
      as [-> | [(_ & _ & ->) | [(id & _ & _ & _ & _ & ->)
                               | (e & _ & _ & _ & ->)]]].
    - cbn. auto.
    - pose proof (register_user_chat_history
                    (salt env) (st.text_input_username ui)
                    (st.text_input_password ui) (db w0)) as Hsame.
      destruct (register_user (salt env) (st.text_input_username ui)
                              (st.text_input_password ui) (db w0))
        as [[ok|e] d']; cbn in Hsame; [cbn; auto|].
      destruct e; try solve [cbn; auto].
      cbv beta iota zeta. rewrite script_released_anonymous by exact Hout.
      cbn. auto.
    - cbv beta iota zeta. rewrite script_shows. cbn -[main_app].
      match goal with
      | |- context [main_app env (released ui) ?w1] =>
          destruct (main_app_idle env (released ui) w1) as (Hdb & Hcalls & _);
          try reflexivity; rewrite Hdb, Hcalls
      end.
      auto.
    - destruct e; try solve [cbn; auto].
      cbv beta iota zeta. rewrite script_released_anonymous by exact Hout.
      auto. }
  unfold interact. rewrite script_shows.
  destruct (st.logged_in (session_state w)) as [[|]|] eqn:Hl; try congruence.
  - apply Hpage. exact Hl.
  - apply (Hpage {| db := db w;
                    session_state := st.set_logged_in false (session_state w);
                    gemini_calls := gemini_calls w |}).
    reflexivity.
Qed.

End Sessions.

(** ** The rows of the conversation *)



Section Rows.

Context {pwd_context : CryptContext}.










End Rows.

(** ** Uploads *)


Lemma extract_text_from_pdf_pages (file : UploadedFile) (pages : list Page) :
  PdfReader file = Ok pages ->
  extract_text_from_pdf file = Ok (concatenation pages).
Proof.
  intros Hparse. unfold extract_text_from_pdf.
  now rewrite Hparse, extract_loop.
Qed.

(** X11. A file that is not a well-formed PDF stops the run where it is
    read: [main_app] raises the parser's error and leaves the database,
    the session and the log of requests as they were. Nothing else the
    run was asked to do happens; a question typed in the same run is not
    stored, and a pressed [Logout] does not log out. *)
Theorem malformed_upload_aborts_run
        (env : environment) (ui : st.widgets) (w : world)
        (name : option string) (file : UploadedFile) (e : exn) :
  st.username (session_state w) = Some name ->
  st.file_uploader ui = Some file ->
  PdfReader file = Raise e ->
  main_app env ui w = (Raise e, w).
Proof.
  destruct w as [d [li uid un dc ms] calls].
  destruct ui as [sel tu tp bl br fu blo ci]. cbn.
  intros -> -> Hparse. unfold main_app. run_page.
  unfold extract_text_from_pdf. rewrite Hparse. reflexivity.
Qed.

(** X12. An upload replaces the held document: when the file in the
    uploader parses and [Logout] is not pressed, the run leaves in
    [document_content] the concatenation of the pages' texts, whatever
    was held before and however the rest of the run ends. *)
Theorem upload_replaces_document
        (env : environment) (ui : st.widgets) (w : world)
        (name : option string) (file : UploadedFile) (pages : list Page) :
  st.username (session_state w) = Some name ->
  st.file_uploader ui = Some file ->
  PdfReader file = Ok pages ->
  st.button_logout ui = false ->
  st.document_content (session_state (snd (main_app env ui w))) =
  Some (Some (concatenation pages)).
Proof.
  destruct w as [d [li uid un dc ms] calls].
  destruct ui as [sel tu tp bl br fu blo ci]. cbn.
  intros -> -> Hparse ->. unfold main_app.
  cbn [st.file_uploader st.button_logout st.chat_input].
  rewrite (extract_text_from_pdf_pages file pages Hparse).
  destruct ms as [[|m l]|], uid, ci; run_page; split_cases; reflexivity.
Qed.

(** X13. Loading the transcript: a run of [main_app] in which nothing is
    uploaded, pressed or asked ends normally and changes at most
    [messages]. When [messages] is missing or empty it becomes the
    history that [get_chat_history] returns for the session's user; when
    it holds anything, the run changes nothing at all, and the stored
    history is not read. *)
Theorem main_app_loads_history
        (env : environment) (ui : st.widgets) (w : world)
        (name : option string) (uid : option Z) :
  st.username (session_state w) = Some name ->
  st.user_id (session_state w) = Some uid ->
  st.file_uploader ui = None ->
  st.button_logout ui = false ->
  st.chat_input ui = None ->
  main_app env ui w =
  (Ok tt,
   match st.messages (session_state w) with
   | Some (m :: l) => w
   | _ =>
       {| db := db w;
          session_state :=
            st.set_messages (fst (get_chat_history uid (db w)))
                            (session_state w);
          gemini_calls := gemini_calls w |}
   end).
Proof.
  destruct w as [d [li uid' un dc ms] calls].
  destruct ui as [sel tu tp bl br fu blo ci]. cbn.
  intros -> -> -> -> ->. unfold main_app.
  destruct ms as [[|m l]|]; reflexivity.
Qed.

Section Turns.

Variables (env : environment) (ui : st.widgets) (w : world).
Variables (name : option string) (uid : option Z) (q : string).

Hypothesis Hname : st.username (session_state w) = Some name.
Hypothesis Huid : st.user_id (session_state w) = Some uid.
Hypothesis Hstay : st.button_logout ui = false.
Hypothesis Hasked : st.chat_input ui = Some q.
Hypothesis Hq : q <> "".


(** X15. A turn that the service answers: with a non-empty document
    held, one request is sent, whose prompt is the fixed instruction with
    the document text and then the question; the reply is stored as it
    came, after the question; the transcript ends with the two messages;
    and the user's stored history is the one before followed by them. *)
Theorem answered_turn_is_stored_and_read_back (doc text : string) :
  held_document ui (session_state w) = Ok (Some (Some doc)) ->
  doc <> "" ->
  generate_content env (full_prompt doc q) = Ok text ->
  exists w',
    main_app env ui w = (Ok tt, w') /\
    db w' = after_turn uid q text (db w) /\
    gemini_calls w' =
    (gemini_calls w ++ [full_prompt doc q])%list /\
    (exists shown,
        st.messages (session_state w') =
        Some (shown ++ [ {| role := "user"; content := q |};
                         {| role := "assistant"; content := text |} ])%list) /\
    (forall u : Z,
        uid = Some u ->
        fst (get_chat_history (Some u) (db w')) =
        (fst (get_chat_history (Some u) (db w)) ++
         [ {| role := "user"; content := q |};
           {| role := "assistant"; content := text |} ])%list).
Proof.
  intros Hdoc Hdne Hans.
  destruct (main_app_service_answers env ui w name uid q
              Hname Huid Hstay Hasked Hq doc text Hdoc Hdne Hans)
    as (w' & Hrun & Hdb & Hcalls & Hshown).
  exists w'. repeat split; auto.
  intros u ->. rewrite Hdb. unfold after_turn, get_chat_history. cbn.
  rewrite !List.filter_app, !map_app. cbn.
  unfold user_id_matches. cbn. rewrite Z.eqb_refl. cbn.
  now rewrite <- List.app_assoc.
Qed.


End Turns.

(** ** The login page *)

Section LoginPage.

Context {pwd_context : CryptContext}.

(** X17. A login that [login_user] refuses changes nothing: with
    ["Login"] selected, when [login_user] returns [None] for the typed
    username and password, the run of [login_page] ends normally with the
    database, the session and the log of requests as they were, the same
    for a username without a row as for a wrong password. *)
Theorem refused_login_changes_nothing
        (env : environment) (ui : st.widgets) (w : world) :
  String.eqb (st.selectbox ui) "Login" = true ->
  fst (login_user (st.text_input_username ui) (st.text_input_password ui)
                  (db w)) = Ok None ->
  login_page env ui w = (Ok tt, w).
Proof.
  intros Hsel Hnone.
  destruct (login_page_outcome env ui w)
    as [H | [(Hsel' & _) | [(id & _ & _ & Hlogin & _)
                           | (e & _ & _ & Hlogin & _)]]];
    auto; congruence.
Qed.

(** X18. Registering does not log in: with any other choice than
    ["Login"] selected, a run of [login_page] leaves the session and the
    log of requests as they were. When [Register] is pressed the database
    is the one [register_user] returns, and the run ends normally if
    [register_user] returns, [True] or [False], and raises what
    [register_user] raises, for a password that the hashing refuses;
    otherwise nothing happens. *)
Theorem registering_does_not_log_in
        (env : environment) (ui : st.widgets) (w : world) :
  String.eqb (st.selectbox ui) "Login" = false ->
  login_page env ui w =
  (if st.button_register ui
   then match fst (register_user (salt env) (st.text_input_username ui)
                                 (st.text_input_password ui) (db w)) with
        | Ok _ => Ok tt
        | Raise e => Raise e
        end
   else Ok tt,
   {| db := if st.button_register ui
            then snd (register_user (salt env) (st.text_input_username ui)
                                    (st.text_input_password ui) (db w))
            else db w;
      session_state := session_state w;
      gemini_calls := gemini_calls w |}).
Proof.
  destruct w as [d s calls]. destruct ui as [sel tu tp bl br fu blo ci].
  cbn. intros Hsel. unfold login_page. cbn. rewrite Hsel.
  destruct br; [|reflexivity].
  run_page.
  destruct (register_user (salt env) tu tp d) as [[ok|e] d']; reflexivity.
Qed.

End LoginPage.

(** ** The further properties at the session of [Example] *)

(** After ["alice"] has registered and logged in from client 0, her
    session names the row with key 1. *)
Lemma logged_in_sessions_name_accounts_witness :
  exists row,
    In row (users (store (@client_steps example_context
                            [ (0%nat, Example.answering,
                               Example.press_register "alice" "pw123");
                              (0%nat, Example.answering,
                               Example.press_login "alice" "pw123") ]
                            initial))) /\
    u_id row <> 0 /\
    Some (Some 1) = Some (Some (u_id row)) /\
    Some (Some "alice") = Some (Some (u_username row)).
Proof.
  apply (@logged_in_sessions_name_accounts example_context
           [ (0%nat, Example.answering, Example.press_register "alice" "pw123");
             (0%nat, Example.answering, Example.press_login "alice" "pw123") ]
           0%nat
           {| st.logged_in := Some true;
              st.user_id := Some (Some 1);
              st.username := Some (Some "alice");
              st.document_content := None;
              st.messages := Some [] |}).
  - vm_compute. reflexivity.
  - reflexivity.
Defined.

(** A successful login from the logged-out session stores no message and
    sends no request. *)
Lemma anonymous_session_cannot_chat_witness :
  chat_history (db (snd (@interact example_context Example.answering
                           (Example.press_login "alice" "pw123")
                           Example.registered))) =
  chat_history (db Example.registered) /\
  gemini_calls (snd (@interact example_context Example.answering
                       (Example.press_login "alice" "pw123")
                       Example.registered)) =
  gemini_calls Example.registered.
Proof.
  apply (@anonymous_session_cannot_chat example_context).
  vm_compute. discriminate.
Defined.

(** ["alice"] has a broken file in the uploader, types a question and
    presses [Logout]: the run stops at the file. *)
Lemma malformed_upload_aborts_run_witness :
  main_app Example.answering
    {| st.selectbox := "Login";
       st.text_input_username := "";
       st.text_input_password := "";
       st.button_login := false;
       st.button_register := false;
       st.file_uploader :=
         Some {| PdfReader := Raise (PdfReadError "EOF marker not found") |};
       st.button_logout := true;
       st.chat_input := Some "What does it say?" |}
    Example.alice_in =
  (Raise (PdfReadError "EOF marker not found"), Example.alice_in).
Proof.
  apply (malformed_upload_aborts_run _ _ Example.alice_in (Some "alice")
           {| PdfReader := Raise (PdfReadError "EOF marker not found") |});
    reflexivity.
Defined.

Lemma upload_replaces_document_witness :
  st.document_content
    (session_state
       (snd (main_app Example.answering
               (Example.ask (Some Example.two_pages) "What does it say?")
               Example.alice_in))) =
  Some (Some "Hello").
Proof.
  exact (upload_replaces_document Example.answering
           (Example.ask (Some Example.two_pages) "What does it say?")
           Example.alice_in (Some "alice") Example.two_pages
           [ {| extract_text := Some "Hello" |}; {| extract_text := Some "" |} ]
           eq_refl eq_refl eq_refl eq_refl).
Defined.

(** The first run of [main_app] for ["bob"] in a new session, after
    ["alice"] asked from hers: his transcript is loaded, and it is
    empty. *)
Lemma main_app_loads_history_witness :
  main_app Example.answering Example.idle
    {| db := db Example.alice_asked;
       session_state :=
         {| st.logged_in := Some true;
            st.user_id := Some (Some 2);
            st.username := Some (Some "bob");
            st.document_content := None;
            st.messages := None |};
       gemini_calls := [] |} =
  (Ok tt,
   {| db := db Example.alice_asked;
      session_state :=
        {| st.logged_in := Some true;
           st.user_id := Some (Some 2);
           st.username := Some (Some "bob");
           st.document_content := None;
           st.messages := Some [] |};
      gemini_calls := [] |}).
Proof.
  exact (main_app_loads_history Example.answering Example.idle
           {| db := db Example.alice_asked;
              session_state :=
                {| st.logged_in := Some true;
                   st.user_id := Some (Some 2);
                   st.username := Some (Some "bob");
                   st.document_content := None;
                   st.messages := None |};
              gemini_calls := [] |}
           (Some "bob") (Some 2) eq_refl eq_refl eq_refl eq_refl eq_refl).
Defined.


Lemma answered_turn_is_stored_and_read_back_witness :
  exists w',
    main_app Example.answering
      (Example.ask (Some Example.two_pages) "What does it say?")
      Example.alice_in = (Ok tt, w') /\
    db w' = after_turn (Some 1) "What does it say?" "It says Hello."
                       (db Example.alice_in).
Proof.
  destruct (answered_turn_is_stored_and_read_back
              Example.answering
              (Example.ask (Some Example.two_pages) "What does it say?")
              Example.alice_in (Some "alice") (Some 1) "What does it say?"
              eq_refl eq_refl eq_refl eq_refl ltac:(discriminate)
              "Hello" "It says Hello." eq_refl ltac:(discriminate) eq_refl)
    as (w' & Hrun & Hdb & _).
  exists w'. split; [exact Hrun | exact Hdb].
Defined.


Lemma refused_login_changes_nothing_witness :
  @login_page example_context Example.answering
    (Example.press_login "alice" "wrong") Example.registered =
  (Ok tt, Example.registered).
Proof.
  apply (@refused_login_changes_nothing example_context); reflexivity.
Defined.

Lemma registering_does_not_log_in_witness :
  @login_page example_context Example.answering
    (Example.press_register "alice" "pw123") Example.connected =
  (Ok tt,
   {| db := snd (@register_user example_context "s" "alice" "pw123"
                   (db Example.connected));
      session_state := session_state Example.connected;
      gemini_calls := gemini_calls Example.connected |}) /\
  @login_page example_context Example.answering
    (Example.press_register "bob" Example.nul_password) Example.connected =
  (Raise nul_refused, Example.connected).
Proof.
  split.
  - exact (@registering_does_not_log_in example_context Example.answering
             (Example.press_register "alice" "pw123") Example.connected
             eq_refl).
  - exact (@registering_does_not_log_in example_context Example.answering
             (Example.press_register "bob" Example.nul_password)
             Example.connected eq_refl).
Defined.
